(** * GToolbox: the request layer of [backend/gmail_app/views.py]

    A shallow embedding of the views that guard the bulk mail operations:
    [BulkEmailDeleteView.post], [BulkEmailRecoverView.post],
    [TaskStatusView.get], [DeleteByQueryView.post], [RecoverByQueryView.post],
    [GmailSearchView.post], [GmailEmailMetadataView.post] and
    [GoogleOAuthCallbackView.get].

    A view is a computation in a small writer/exception monad: it logs each
    call that leaves the process (a Celery [.delay], a [GmailOperations]
    method, the token exchange, the credential upsert) and either returns a
    value or raises a Python exception.  What the outside world answers to
    such a call is a parameter of the model. *)

From Stdlib Require Import ZArith QArith String Ascii List DecimalString.
From stdpp Require Import base option gmap strings list fin_maps.

Set Warnings "-register-all,-abstract-large-number".

Local Open Scope string_scope.
Local Open Scope Z_scope.
Local Open Scope list_scope.

(** ** Exceptions *)

Inductive exn_class :=
| TypeError
| AttributeError
| KeyError
| ValueError
| DoesNotExist
| OtherError.

Global Instance exn_class_eq_dec : EqDecision exn_class.
Proof. solve_decision. Defined.

(** An exception instance: its class and [str(e)]. *)
Record exn := Exn { exn_cls : exn_class; exn_str : string }.

(** ** Python values

    The payload of a request ([request.data]), the keyword arguments of a
    Celery task, what a task stores in the result backend and the body of a
    [Response] are all JSON-shaped Python values.  Strings are sequences of
    code points below 256; a [float] is kept as the exact rational it
    denotes (the parsers reject NaN and the infinities).  The result backend
    may also hold the exception that ended a task. *)

Inductive value :=
| VNone
| VBool (b : bool)
| VInt (n : Z)
| VFloat (q : Q)
| VStr (s : string)
| VList (l : list value)
| VDict (d : gmap string value)
| VExc (e : exn).

Abbreviation dict := (gmap string value).

Definition class_name (c : exn_class) : string :=
  match c with
  | TypeError => "TypeError"
  | AttributeError => "AttributeError"
  | KeyError => "KeyError"
  | ValueError => "ValueError"
  | DoesNotExist => "DoesNotExist"
  | OtherError => "Exception"
  end.

(** [type(v).__name__] *)
Definition type_name (v : value) : string :=
  match v with
  | VNone => "NoneType"
  | VBool _ => "bool"
  | VInt _ => "int"
  | VFloat _ => "float"
  | VStr _ => "str"
  | VList _ => "list"
  | VDict _ => "dict"
  | VExc e => class_name (exn_cls e)
  end.

(** [bool(v)]: the truth test behind [if v] and [not v]. *)
Definition truthy (v : value) : bool :=
  match v with
  | VNone => false
  | VBool b => b
  | VInt n => negb (n =? 0)
  | VFloat q => negb (Qeq_bool q 0)
  | VStr s => negb (String.eqb s "")
  | VList l => match l with [] => false | _ :: _ => true end
  | VDict d => negb (bool_decide (d = ∅))
  | VExc _ => true
  end.

(** ** Results *)

Inductive result (A : Type) :=
| Ok (a : A)
| Raise (e : exn).
Arguments Ok {A} a.
Arguments Raise {A} e.

Global Instance result_ret : MRet result := λ A a, Ok a.
Global Instance result_bind : MBind result := λ A B f r,
  match r with
  | Ok a => f a
  | Raise e => Raise e
  end.

(** ** Builtins used by the views *)

(** [len(v)] *)
Definition py_len (v : value) : result Z :=
  match v with
  | VStr s => Ok (Z.of_nat (String.length s))
  | VList l => Ok (Z.of_nat (length l))
  | VDict d => Ok (Z.of_nat (size d))
  | _ => Raise (Exn TypeError
                  ("object of type '" +:+ type_name v +:+ "' has no len()"))
  end.

(** [v > n] for an [int] literal [n], when [v] is a number
    ([bool] is a subclass of [int]). *)
Definition num_gt_int (v : value) (n : Z) : option bool :=
  match v with
  | VBool b => Some (n <? Z.b2z b)
  | VInt m => Some (n <? m)
  | VFloat q => Some (negb (Qle_bool q (inject_Z n)))
  | _ => None
  end.

(** [v > n] *)
Definition py_gt (v : value) (n : Z) : result bool :=
  match num_gt_int v n with
  | Some b => Ok b
  | None => Raise (Exn TypeError
      ("'>' not supported between instances of '" +:+ type_name v
         +:+ "' and 'int'"))
  end.

(** [min(v, n)]: the builtin keeps its first argument unless the second is
    strictly smaller, that is unless [n < v]. *)
Definition py_min (v : value) (n : Z) : result value :=
  match num_gt_int v n with
  | Some b => Ok (if b then VInt n else v)
  | None => Raise (Exn TypeError
      ("'<' not supported between instances of 'int' and '"
         +:+ type_name v +:+ "'"))
  end.

(** [sub in s] on strings *)
Fixpoint is_prefix (p s : string) : bool :=
  match p, s with
  | EmptyString, _ => true
  | String a p', String b s' => Ascii.eqb a b && is_prefix p' s'
  | String _ _, EmptyString => false
  end.

Fixpoint is_substring (p s : string) : bool :=
  is_prefix p s ||
  match s with
  | EmptyString => false
  | String _ s' => is_substring p s'
  end.

(** [k in v] for a [str] key [k] *)
Definition py_in (k : string) (v : value) : result bool :=
  match v with
  | VDict d => Ok (bool_decide (is_Some (d !! k)))
  | VList l =>
      Ok (existsb (λ x, match x with VStr s => String.eqb s k | _ => false end) l)
  | VStr s => Ok (is_substring k s)
  | _ => Raise (Exn TypeError
      ("argument of type '" +:+ type_name v +:+ "' is not iterable"))
  end.

(** [v[k]] for a [str] key [k] *)
Definition py_getitem (v : value) (k : string) : result value :=
  match v with
  | VDict d =>
      match d !! k with
      | Some x => Ok x
      | None => Raise (Exn KeyError ("'" +:+ k +:+ "'"))
      end
  | VList _ =>
      Raise (Exn TypeError "list indices must be integers or slices, not str")
  | VStr _ =>
      Raise (Exn TypeError "string indices must be integers, not 'str'")
  | _ => Raise (Exn TypeError
      ("'" +:+ type_name v +:+ "' object is not subscriptable"))
  end.

(** [v.get(k, dflt)] *)
Definition py_get (v : value) (k : string) (dflt : value) : result value :=
  match v with
  | VDict d => Ok (default dflt (d !! k))
  | _ => Raise (Exn AttributeError
      ("'" +:+ type_name v +:+ "' object has no attribute 'get'"))
  end.

(** [s.split()]: cut at runs of white space, no empty pieces. *)
Definition is_space (c : ascii) : bool :=
  let n := Z.of_nat (nat_of_ascii c) in
  ((9 <=? n) && (n <=? 13)) || ((28 <=? n) && (n <=? 32))
  || (n =? 133) || (n =? 160).

Fixpoint split_from (s word : string) : list string :=
  match s with
  | EmptyString => if String.eqb word "" then [] else [word]
  | String c s' =>
      if is_space c
      then (if String.eqb word "" then split_from s' ""
            else word :: split_from s' "")
      else split_from s' (word +:+ String c "")
  end.

Definition py_split (s : string) : list string := split_from s "".

(** ** Calls that leave the process *)

(** The Celery tasks of [email_operations], with the keyword arguments the
    views pass to [.delay]. *)
Inductive task_call :=
| bulk_delete_emails_task (user_id : Z) (message_ids permanent batch_size : value)
| bulk_recover_emails_task (user_id : Z) (message_ids batch_size : value)
| delete_by_query_task (user_id : Z) (search_query max_emails permanent : value)
| recover_by_query_task (user_id : Z) (search_query max_emails : value).

(** The methods of [GmailOperations] the modelled views call. *)
Inductive gmail_op :=
| search_emails (query max_results : value)
| get_email_metadata (message_ids : value).

Inductive event :=
| Delay (call : task_call)
| Gmail (user_id : Z) (op : gmail_op)
| TokenExchange (code : string)
| CredentialUpsert (user_id : Z) (defaults : dict)
| GmailProbe (user_id : Z).

(** ** The monad of a view: the calls made so far, and a value or an
    exception. *)

Definition M (A : Type) : Type := list event * result A.

Global Instance M_ret : MRet M := λ A a, ([], Ok a).
Global Instance M_bind : MBind M := λ A B f m,
  match m with
  | (t, Ok a) => let '(t', r) := f a in (t ++ t', r)
  | (t, Raise e) => (t, Raise e)
  end.

(** a pure step that may raise *)
Definition lift {A} (r : result A) : M A := ([], r).

(** an outside call: logged, answered by the environment *)
Definition emit {A} (ev : event) (answer : result A) : M A := ([ev], answer).

(** [try: body  except Exception as e: handler(e)] *)
Definition try_except {A} (body : M A) (handler : exn → M A) : M A :=
  match body with
  | (t, Ok a) => (t, Ok a)
  | (t, Raise e) => let '(t', r) := handler e in (t ++ t', r)
  end.

Definition calls {A} (m : M A) : list event := m.1.
Definition outcome {A} (m : M A) : result A := m.2.

Definition is_upsert (ev : event) : bool :=
  match ev with CredentialUpsert _ _ => true | _ => false end.

(** ** Requests and responses *)

(** [request.user.id], [request.data] (the mapping parsed from the body: a
    JSON object or a form) and [request.GET] (the query string in the order
    it was sent; [.get] gives the last value of a key). *)
Record HttpRequest := {
  user_id : Z;
  data : dict;
  GET : list (string * string)
}.

Inductive HttpResponse :=
| Response (body : value) (status : Z)
| Redirect (url : string).

Definition HTTP_200_OK : Z := 200.
Definition HTTP_400_BAD_REQUEST : Z := 400.
Definition HTTP_500_INTERNAL_SERVER_ERROR : Z := 500.

Definition status_of (r : HttpResponse) : option Z :=
  match r with Response _ s => Some s | Redirect _ => None end.

(** the field [k] of a response whose body is an object *)
Definition field (r : HttpResponse) (k : string) : option value :=
  match r with
  | Response (VDict d) _ => d !! k
  | _ => None
  end.

(** the names of the fields of a response *)
Definition fields (r : HttpResponse) : gset string :=
  match r with
  | Response (VDict d) _ => dom d
  | _ => ∅
  end.

Definition error_body (msg : string) : value :=
  VDict {[ "error" := VStr msg ]}.

Definition failure_body (msg : string) (e : exn) : value :=
  VDict (list_to_map [("error", VStr msg); ("details", VStr (exn_str e))]).

Section Views.

(** What the Celery broker answers to [task.delay(...)]: the id of the new
    task, or an exception. *)
Variable delay : task_call → result string.

(** What a [GmailOperations(user)] method returns, the construction of the
    client included. *)
Variable gmail : Z → gmail_op → result value.

(** ** Bulk delete and bulk recover ([views.py], lines 638-719) *)

Definition BulkEmailDeleteView_post (request : HttpRequest) : M HttpResponse :=
  try_except
    (let message_ids := default (VList []) (data request !! "message_ids") in
     let permanent := default (VBool false) (data request !! "permanent") in
     let batch_size := default (VInt 100) (data request !! "batch_size") in
     if negb (truthy message_ids) then
       mret (Response (error_body "message_ids required") HTTP_400_BAD_REQUEST)
     else
       n ← lift (py_len message_ids);
       if 10000 <? n then
         mret (Response (error_body "Too many emails (max 10,000 per operation)")
                 HTTP_400_BAD_REQUEST)
       else
         batch ← lift (py_min batch_size 500);
         let call :=
           bulk_delete_emails_task (user_id request) message_ids permanent batch in
         task_id ← emit (Delay call) (delay call);
         mret (Response
                 (VDict (list_to_map
                    [("status", VStr "started");
                     ("task_id", VStr task_id);
                     ("total_emails", VInt n);
                     ("permanent", permanent);
                     ("message",
                      VStr "Bulk deletion started. Use task_id to check progress.")]))
                 HTTP_200_OK))
    (λ e, mret (Response (failure_body "Failed to start bulk deletion" e)
                  HTTP_500_INTERNAL_SERVER_ERROR)).

Definition BulkEmailRecoverView_post (request : HttpRequest) : M HttpResponse :=
  try_except
    (let message_ids := default (VList []) (data request !! "message_ids") in
     let batch_size := default (VInt 100) (data request !! "batch_size") in
     if negb (truthy message_ids) then
       mret (Response (error_body "message_ids required") HTTP_400_BAD_REQUEST)
     else
       n ← lift (py_len message_ids);
       if 10000 <? n then
         mret (Response (error_body "Too many emails (max 10,000 per operation)")
                 HTTP_400_BAD_REQUEST)
       else
         batch ← lift (py_min batch_size 500);
         let call := bulk_recover_emails_task (user_id request) message_ids batch in
         task_id ← emit (Delay call) (delay call);
         mret (Response
                 (VDict (list_to_map
                    [("status", VStr "started");
                     ("task_id", VStr task_id);
                     ("total_emails", VInt n);
                     ("message",
                      VStr "Bulk recovery started. Use task_id to check progress.")]))
                 HTTP_200_OK))
    (λ e, mret (Response (failure_body "Failed to start bulk recovery" e)
                  HTTP_500_INTERNAL_SERVER_ERROR)).

(** ** Task status ([views.py], lines 721-774) *)

(** What the result backend holds for a task: its state and what the worker
    stored with it (progress meta, the task's return value, or the exception
    that ended it).  Celery's [result.result] and [result.info] are one
    attribute.  A poll is taken to read one snapshot of the record. *)
Record AsyncResult := { state : string; info : value }.

(** The read of the record.  [AsyncResult(task_id)] reads nothing: the
    backend is asked by [result.state], inside the [try], and that raises
    when no result backend is configured or the store cannot be reached. *)
Variable backend : string → result AsyncResult.

(** Python's [str(v)] on numbers, [None] and containers, used where a view
    formats a value into a message. *)
Variable py_repr : value → string.

(** [str(v)] *)
Definition py_str (v : value) : string :=
  match v with
  | VStr s => s
  | VExc e => exn_str e
  | _ => py_repr v
  end.

Definition progress_body (current total message : value) : value :=
  VDict (list_to_map
    [("current", current); ("total", total); ("message", message)]).

Definition TaskStatusView_get (task_id : string) : M HttpResponse :=
  try_except
    (result ← lift (backend task_id);
     if String.eqb (state result) "PENDING" then
       mret (Response
               (VDict (list_to_map
                  [("task_id", VStr task_id);
                   ("status", VStr "PENDING");
                   ("progress",
                    progress_body (VInt 0) (VInt 0)
                      (VStr "Task is waiting to start"))]))
               HTTP_200_OK)
     else if String.eqb (state result) "PROGRESS" then
       current ← lift (py_get (info result) "current" (VInt 0));
       total ← lift (py_get (info result) "total" (VInt 0));
       message ← lift (py_get (info result) "message" (VStr "Processing..."));
       mret (Response
               (VDict (list_to_map
                  [("task_id", VStr task_id);
                   ("status", VStr "PROGRESS");
                   ("progress", progress_body current total message)]))
               HTTP_200_OK)
     else if String.eqb (state result) "SUCCESS" then
       current ← lift (py_get (info result) "total" (VInt 0));
       total ← lift (py_get (info result) "total" (VInt 0));
       mret (Response
               (VDict (list_to_map
                  [("task_id", VStr task_id);
                   ("status", VStr "SUCCESS");
                   ("result", info result);
                   ("progress",
                    progress_body current total
                      (VStr "Completed successfully"))]))
               HTTP_200_OK)
     else
       mret (Response
               (VDict (list_to_map
                  [("task_id", VStr task_id);
                   ("status", VStr "FAILURE");
                   ("result",
                    VDict {[ "error" :=
                      VStr (if truthy (info result)
                            then py_str (info result)
                            else "Unknown error") ]})]))
               HTTP_200_OK))
    (λ e, mret (Response (failure_body "Failed to get task status" e)
                  HTTP_500_INTERNAL_SERVER_ERROR)).

(** ** Delete and recover by query ([views.py], lines 779-861) *)

Definition DeleteByQueryView_post (request : HttpRequest) : M HttpResponse :=
  try_except
    (let search_query := default (VStr "") (data request !! "q") in
     let max_emails := default (VInt 1000) (data request !! "max_emails") in
     let permanent := default (VBool false) (data request !! "permanent") in
     if negb (truthy search_query) then
       mret (Response (error_body "q parameter required") HTTP_400_BAD_REQUEST)
     else
       over ← lift (py_gt max_emails 10000);
       if (over : bool) then
         mret (Response (error_body "Maximum 10,000 emails per operation")
                 HTTP_400_BAD_REQUEST)
       else
         let call :=
           delete_by_query_task (user_id request) search_query max_emails permanent in
         task_id ← emit (Delay call) (delay call);
         mret (Response
                 (VDict (list_to_map
                    [("status", VStr "started");
                     ("task_id", VStr task_id);
                     ("search_query", search_query);
                     ("max_emails", max_emails);
                     ("permanent", permanent);
                     ("message",
                      VStr ("Deletion started for up to " +:+ py_str max_emails
                            +:+ " emails. Use task_id to check progress."))]))
                 HTTP_200_OK))
    (λ e, mret (Response (failure_body "Failed to start deletion by query" e)
                  HTTP_500_INTERNAL_SERVER_ERROR)).

Definition RecoverByQueryView_post (request : HttpRequest) : M HttpResponse :=
  try_except
    (let search_query := default (VStr "") (data request !! "q") in
     let max_emails := default (VInt 1000) (data request !! "max_emails") in
     if negb (truthy search_query) then
       mret (Response (error_body "q parameter required") HTTP_400_BAD_REQUEST)
     else
       over ← lift (py_gt max_emails 10000);
       if (over : bool) then
         mret (Response (error_body "Maximum 10,000 emails per operation")
                 HTTP_400_BAD_REQUEST)
       else
         let call :=
           recover_by_query_task (user_id request) search_query max_emails in
         task_id ← emit (Delay call) (delay call);
         mret (Response
                 (VDict (list_to_map
                    [("status", VStr "started");
                     ("task_id", VStr task_id);
                     ("search_query", search_query);
                     ("max_emails", max_emails);
                     ("message",
                      VStr ("Recovery started for up to " +:+ py_str max_emails
                            +:+ " emails. Use task_id to check progress."))]))
                 HTTP_200_OK))
    (λ e, mret (Response (failure_body "Failed to start recovery by query" e)
                  HTTP_500_INTERNAL_SERVER_ERROR)).

(** ** Advanced search and metadata ([views.py], lines 426-461, 526-558) *)

(** [gmail_operations.build_search_query] is not part of the sources at
    hand; the view is modelled over whatever it returns. *)
Variable build_search_query : dict → result value.

Definition GmailSearchView_post (request : HttpRequest) : M HttpResponse :=
  try_except
    (let filters := data request in
     query ← lift (build_search_query filters);
     let max_results := default (VInt 100) (filters !! "max_results") in
     if negb (truthy query) then
       mret (Response (error_body "No valid search filters provided")
               HTTP_400_BAD_REQUEST)
     else
       let op := search_emails query max_results in
       result ← emit (Gmail (user_id request) op) (gmail (user_id request) op);
       failed ← lift (py_in "error" result);
       if (failed : bool) then mret (Response result HTTP_400_BAD_REQUEST)
       else
         mret (Response
                 (VDict (list_to_map
                    [("status", VStr "success");
                     ("data", result);
                     ("filters_used", VDict filters);
                     ("generated_query", query)]))
                 HTTP_200_OK))
    (λ e, mret (Response (failure_body "Advanced search failed" e)
                  HTTP_500_INTERNAL_SERVER_ERROR)).

Definition GmailEmailMetadataView_post (request : HttpRequest) : M HttpResponse :=
  try_except
    (let message_ids := default (VList []) (data request !! "message_ids") in
     if negb (truthy message_ids) then
       mret (Response (error_body "message_ids required") HTTP_400_BAD_REQUEST)
     else
       n ← lift (py_len message_ids);
       if 1000 <? n then
         mret (Response (error_body "Too many message IDs (max 1000)")
                 HTTP_400_BAD_REQUEST)
       else
         let op := get_email_metadata message_ids in
         result ← emit (Gmail (user_id request) op) (gmail (user_id request) op);
         failed ← lift (py_in "error" result);
         if (failed : bool) then mret (Response result HTTP_400_BAD_REQUEST)
         else
           emails ← lift (py_getitem result "emails");
           count ← lift (py_len emails);
           mret (Response
                   (VDict (list_to_map
                      [("status", VStr "success");
                       ("data", result);
                       ("count", VInt count)]))
                   HTTP_200_OK))
    (λ e, mret (Response (failure_body "Failed to get email metadata" e)
                  HTTP_500_INTERNAL_SERVER_ERROR)).

(** ** The OAuth callback ([views.py], lines 138-229) *)

Record Settings := {
  FRONTEND_URL : option string;
  GOOGLE_OAUTH2_CLIENT_ID : option value;
  GOOGLE_OAUTH2_CLIENT_SECRET : option value
}.

Record User := { pk : Z; username : string }.

Variable settings : Settings.

(** [int(state)]: the number, or [ValueError]. *)
Variable py_int : string → result Z.

(** [User.objects.get(id=n)]: the row, or [DoesNotExist]. *)
Variable User_objects_get : Z → result User.

(** [utils.exchange_code_for_tokens(code)]: the token response of the
    provider, or an exception. *)
Variable exchange_code_for_tokens : string → result value.

(** [timezone.now() + timedelta(seconds=s)] *)
Variable expiry_after : value → result value.

(** [GoogleOAuthToken.objects.update_or_create(user=u, defaults=d)] *)
Variable update_or_create : Z → dict → result unit.

(** Lines 211-220: the connectivity probe.  Every exception is swallowed
    there, so it always yields the address shown in the redirect
    (['Unknown'] when it could not be read). *)
Variable probe_gmail_address : Z → string.

(** [querydict.get(k)] *)
Definition qd_get (q : list (string * string)) (k : string) : option string :=
  last (snd <$> filter (λ kv, kv.1 = k) q).

(** the truth test of [str | None] *)
Definition opt_truthy (o : option string) : bool :=
  match o with
  | Some s => negb (String.eqb s "")
  | None => false
  end.

(** run [body], handing back an exception instead of raising it *)
Definition attempt {A} (body : M A) : M (result A) := (body.1, Ok body.2).

(** [getattr(settings, name)] without a default *)
Definition setting (name : string) (o : option value) : result value :=
  match o with
  | Some v => Ok v
  | None => Raise (Exn AttributeError
      ("'Settings' object has no attribute '" +:+ name +:+ "'"))
  end.

Definition required_scopes : list string :=
  ["https://www.googleapis.com/auth/gmail.modify"].

(** lines 179-180 *)
Definition granted_scopes (request : HttpRequest) : list string :=
  let granted_scopes_param := default "" (qd_get (GET request) "scope") in
  if String.eqb granted_scopes_param "" then [] else py_split granted_scopes_param.

(** line 184 *)
Definition missing_scopes (request : HttpRequest) : list string :=
  filter (λ scope, scope ∉ granted_scopes request) required_scopes.

Definition oauth_error (frontend_url message : string) : HttpResponse :=
  Redirect (frontend_url +:+ "/dashboard?oauth=error&message=" +:+ message).

Definition GoogleOAuthCallbackView_get (request : HttpRequest) : M HttpResponse :=
  let code := qd_get (GET request) "code" in
  let state := qd_get (GET request) "state" in
  let error := qd_get (GET request) "error" in
  let frontend_url := default "http://localhost:3000" (FRONTEND_URL settings) in
  if opt_truthy error then
    mret (oauth_error frontend_url (default "" error))
  else if negb (opt_truthy state) || negb (opt_truthy code) then
    mret (oauth_error frontend_url "missing_parameters")
  else
    try_except
      (found ← attempt (lift (n ← py_int (default "" state); User_objects_get n));
       match found with
       | Raise e =>
           if bool_decide (exn_cls e = DoesNotExist ∨ exn_cls e = ValueError)
           then mret (oauth_error frontend_url "invalid_state")
           else lift (Raise e)
       | Ok user =>
           exchanged ← attempt
             (emit (TokenExchange (default "" code))
                (exchange_code_for_tokens (default "" code)));
           match exchanged with
           | Raise _ => mret (oauth_error frontend_url "token_exchange_failed")
           | Ok token_response =>
               has_token ← lift (py_in "access_token" token_response);
               if negb has_token then
                 mret (oauth_error frontend_url "invalid_token_response")
               else
                 match missing_scopes request with
                 | _ :: _ => mret (oauth_error frontend_url "missing_scopes")
                 | [] =>
                     has_expiry ← lift (py_in "expires_in" token_response);
                     expiry ←
                       (if (has_expiry : bool) then
                          seconds ← lift (py_getitem token_response "expires_in");
                          lift (expiry_after seconds)
                        else mret VNone);
                     access_token ← lift (py_getitem token_response "access_token");
                     refresh_token ←
                       lift (py_get token_response "refresh_token" VNone);
                     client_id ←
                       lift (setting "GOOGLE_OAUTH2_CLIENT_ID"
                               (GOOGLE_OAUTH2_CLIENT_ID settings));
                     client_secret ←
                       lift (setting "GOOGLE_OAUTH2_CLIENT_SECRET"
                               (GOOGLE_OAUTH2_CLIENT_SECRET settings));
                     let defaults : dict :=
                       list_to_map
                         [("access_token", access_token);
                          ("refresh_token", refresh_token);
                          ("token_uri", VStr "https://oauth2.googleapis.com/token");
                          ("client_id", client_id);
                          ("client_secret", client_secret);
                          ("scopes", VList (VStr <$> granted_scopes request));
                          ("expiry", expiry)] in
                     _ ← emit (CredentialUpsert (pk user) defaults)
                           (update_or_create (pk user) defaults);
                     gmail_address ← emit (GmailProbe (pk user))
                                       (Ok (probe_gmail_address (pk user)));
                     mret (Redirect (frontend_url
                                       +:+ "/dashboard?oauth=success&email="
                                       +:+ gmail_address))
                 end
           end
       end)
      (λ _, mret (oauth_error frontend_url "server_error")).

End Views.

(** ** Vocabulary of the properties *)

(** what a request asks for, with the defaults the views fill in *)
Definition requested_ids (request : HttpRequest) : value :=
  default (VList []) (data request !! "message_ids").
Definition requested_batch_size (request : HttpRequest) : value :=
  default (VInt 100) (data request !! "batch_size").
Definition requested_permanent (request : HttpRequest) : value :=
  default (VBool false) (data request !! "permanent").
Definition requested_query (request : HttpRequest) : value :=
  default (VStr "") (data request !! "q").
Definition requested_max_emails (request : HttpRequest) : value :=
  default (VInt 1000) (data request !! "max_emails").


(** the [max_emails] keyword of a by-query task *)
Definition max_emails_of (call : task_call) : option value :=
  match call with
  | delete_by_query_task _ _ m _ => Some m
  | recover_by_query_task _ _ m => Some m
  | _ => None
  end.

(** a view accepted the request: it answered 200 *)
Definition accepted (m : M HttpResponse) : Prop :=
  ∃ body, outcome m = Ok (Response body HTTP_200_OK).

(** a view refused the request with the 400 response [msg] and called
    nothing outside *)
Definition rejected (m : M HttpResponse) (msg : string) : Prop :=
  m = ([], Ok (Response (error_body msg) HTTP_400_BAD_REQUEST)).

(** the only outside call of a view was the submission of [call] *)
Definition schedules (m : M HttpResponse) (call : task_call) : Prop :=
  calls m = [Delay call].

(** the views that share a guard, under one name *)
Inductive bulk_view := BulkDelete | BulkRecover.
Inductive ids_view := Bulk (view : bulk_view) | Metadata.
Inductive query_view := DeleteByQuery | RecoverByQuery.
Inductive criteria_view := ByQuery (view : query_view) | AdvancedSearch.

Section Dispatch.

Variable delay : task_call → result string.
Variable gmail : Z → gmail_op → result value.
Variable py_repr : value → string.
Variable build_search_query : dict → result value.

Definition bulk_post (view : bulk_view) : HttpRequest → M HttpResponse :=
  match view with
  | BulkDelete => BulkEmailDeleteView_post delay
  | BulkRecover => BulkEmailRecoverView_post delay
  end.

Definition ids_post (view : ids_view) : HttpRequest → M HttpResponse :=
  match view with
  | Bulk view => bulk_post view
  | Metadata => GmailEmailMetadataView_post gmail
  end.

Definition query_post (view : query_view) : HttpRequest → M HttpResponse :=
  match view with
  | DeleteByQuery => DeleteByQueryView_post delay py_repr
  | RecoverByQuery => RecoverByQueryView_post delay py_repr
  end.

Definition criteria_post (view : criteria_view) : HttpRequest → M HttpResponse :=
  match view with
  | ByQuery view => query_post view
  | AdvancedSearch => GmailSearchView_post gmail build_search_query
  end.

(** the query string a view works from *)
Definition criteria_of (view : criteria_view) (request : HttpRequest) : result value :=
  match view with
  | ByQuery _ => Ok (requested_query request)
  | AdvancedSearch => build_search_query (data request)
  end.

End Dispatch.

(** the task a by-query view submits for a request *)
Definition query_task (view : query_view) (request : HttpRequest) : task_call :=
  match view with
  | DeleteByQuery =>
      delete_by_query_task (user_id request) (requested_query request)
        (requested_max_emails request) (requested_permanent request)
  | RecoverByQuery =>
      recover_by_query_task (user_id request) (requested_query request)
        (requested_max_emails request)
  end.

(** the bodies the bulk views answer with *)
Definition started_delete (task_id : string) (n : Z) (permanent : value) : value :=
  VDict (list_to_map
    [("status", VStr "started"); ("task_id", VStr task_id);
     ("total_emails", VInt n); ("permanent", permanent);
     ("message", VStr "Bulk deletion started. Use task_id to check progress.")]).

Definition started_recover (task_id : string) (n : Z) : value :=
  VDict (list_to_map
    [("status", VStr "started"); ("task_id", VStr task_id);
     ("total_emails", VInt n);
     ("message", VStr "Bulk recovery started. Use task_id to check progress.")]).


(** the body of the answer for a task that has not started *)
Definition pending_body (task_id : string) : value :=
  VDict (list_to_map
    [("task_id", VStr task_id); ("status", VStr "PENDING");
     ("progress",
      progress_body (VInt 0) (VInt 0) (VStr "Task is waiting to start"))]).


(** the status a poll reports, and its progress object *)
Definition reported_status (resp : HttpResponse) : option string :=
  match field resp "status" with
  | Some (VStr s) => Some s
  | _ => None
  end.

Definition progress_of (resp : HttpResponse) : option dict :=
  match field resp "progress" with
  | Some (VDict p) => Some p
  | _ => None
  end.

Definition has_progress (resp : HttpResponse) : Prop :=
  ∃ p, progress_of resp = Some p ∧ dom p = {[ "current"; "total"; "message" ]}.

Definition statuses : list string := ["PENDING"; "PROGRESS"; "SUCCESS"; "FAILURE"].

(** the task status contract as the spec words it: one of the four
    statuses, a progress object in every case, a result only when the task
    has ended *)
Definition status_contract_as_stated (resp : HttpResponse) : Prop :=
  ∃ s, reported_status resp = Some s ∧ s ∈ statuses ∧
       has_progress resp ∧
       (is_Some (field resp "result") → s = "SUCCESS" ∨ s = "FAILURE").

Definition is_dict (v : value) : bool :=
  match v with VDict _ => true | _ => false end.

(** the callback got as far as comparing the granted scopes: no [error]
    parameter, a [state] that names a user, a [code] the provider exchanged
    for a response that has an access token *)
Definition reaches_scope_check
    (py_int : string → result Z) (User_objects_get : Z → result User)
    (exchange_code_for_tokens : string → result value)
    (request : HttpRequest) : Prop :=
  opt_truthy (qd_get (GET request) "error") = false ∧
  ∃ state code n user token_response,
    qd_get (GET request) "state" = Some state ∧ state ≠ "" ∧
    qd_get (GET request) "code" = Some code ∧ code ≠ "" ∧
    py_int state = Ok n ∧ User_objects_get n = Ok user ∧
    exchange_code_for_tokens code = Ok token_response ∧
    py_in "access_token" token_response = Ok true.

(** ** A sample environment, for the concrete instances *)

Definition broker_up : task_call → result string := λ _, Ok "7f3a".

(** [str] on the sample values: exact on [None], booleans and integers,
    which is all the samples format. *)
Definition sample_repr (v : value) : string :=
  match v with
  | VNone => "None"
  | VBool true => "True"
  | VBool false => "False"
  | VInt n => NilZero.string_of_int (Z.to_int n)
  | _ => "..."
  end.

Definition sample_gmail : Z → gmail_op → result value :=
  λ _ _, Ok (VDict {[ "emails" := VList [] ]}).

Definition no_filters : dict → result value := λ _, Ok (VStr "").

Definition ids (n : nat) : value := VList (replicate n (VStr "m")).

Definition bulk_request (message_ids : value) : HttpRequest :=
  {| user_id := 1; data := {[ "message_ids" := message_ids ]}; GET := [] |}.

Definition query_request (q : string) : HttpRequest :=
  {| user_id := 1; data := {[ "q" := VStr q ]}; GET := [] |}.

Definition empty_request : HttpRequest :=
  {| user_id := 1; data := ∅; GET := [] |}.

Definition sample_backend (task_id : string) : result AsyncResult :=
  if String.eqb task_id "done" then
    Ok {| state := "SUCCESS";
          info := VDict (list_to_map [("total", VInt 3); ("successful", VInt 3)]) |}
  else if String.eqb task_id "failed" then
    Ok {| state := "FAILURE"; info := VExc (Exn OtherError "quota exceeded") |}
  else Ok {| state := "PENDING"; info := VNone |}.

Definition sample_settings : Settings :=
  {| FRONTEND_URL := None;
     GOOGLE_OAUTH2_CLIENT_ID := Some (VStr "client");
     GOOGLE_OAUTH2_CLIENT_SECRET := Some (VStr "secret") |}.

Definition sample_int (s : string) : result Z :=
  if String.eqb s "42" then Ok 42
  else Raise (Exn ValueError
    ("invalid literal for int() with base 10: '" +:+ s +:+ "'")).

Definition sample_users (n : Z) : result User :=
  if n =? 42 then Ok {| pk := 42; username := "ambuj" |}
  else Raise (Exn DoesNotExist "User matching query does not exist.").

Definition sample_exchange (code : string) : result value :=
  Ok (VDict (list_to_map [("access_token", VStr "ya29"); ("expires_in", VInt 3599)])).

Definition sample_expiry (seconds : value) : result value := Ok seconds.
Definition sample_store : Z → dict → result unit := λ _ _, Ok ().
Definition sample_probe : Z → string := λ _, "Unknown".

Definition callback_request (query : list (string * string)) : HttpRequest :=
  {| user_id := 0; data := ∅; GET := query |}.

Definition sample_callback : HttpRequest → M HttpResponse :=
  GoogleOAuthCallbackView_get sample_settings sample_int sample_users
    sample_exchange sample_expiry sample_store sample_probe.

(** * The other views of [views.py] *)

(** ** Their collaborators

    The remaining views call helpers of [utils], [gmail_utils],
    [gmail_operations], [email_operations] and [advanced_operations], the
    token table and the JWT blacklist.  Each call is logged by name and
    arguments; what it returns is a parameter. *)

Inductive service_call :=
| generate_auth_url (user_id : Z)
| revoke_user_tokens (user_id : Z)
| GoogleOAuthToken_objects_get (user_id : Z)
| create_gmail_service (user_id : Z)
| getProfile (user_id : Z)
| test_gmail_connectivity (user_id : Z)
| get_service_force_refresh (user_id : Z)
| get_last_error (user_id : Z)
| search_emails_page (user_id : Z) (query max_results page_token : value)
| get_quick_email_estimate (user_id : Z) (query : value)
| get_labels (user_id : Z)
| delete_single_email (user_id : Z) (message_id permanent : value)
| recover_email (user_id : Z) (message_id : value)
| preview_deletion_query (user_id : Z) (search_query sample_size : value)
| get_deletion_statistics (user_id : Z) (days_back : value)
| get_user_rules (user_id : Z)
| create_deletion_rule (user_id : Z) (rule_config : value)
| execute_rule (user_id : Z) (rule_id : value)
| get_undo_history (user_id : Z)
| execute_undo (user_id : Z) (undo_id : value)
| blacklist (refresh_token : value).

(** the calls made, and a value or an exception *)
Definition V (A : Type) : Type := list service_call * result A.

Global Instance V_ret : MRet V := λ A a, ([], Ok a).
Global Instance V_bind : MBind V := λ A B f m,
  match m with
  | (t, Ok a) => let '(t', r) := f a in (t ++ t', r)
  | (t, Raise e) => (t, Raise e)
  end.

(** a pure step that may raise *)
Definition step {A} (r : result A) : V A := ([], r).

(** a call to a collaborator: logged, answered by the environment *)
Definition ask {A} (c : service_call) (answer : result A) : V A := ([c], answer).

(** [try: body  except Exception as e: handler(e)] *)
Definition guarded {A} (body : V A) (handler : exn → V A) : V A :=
  match body with
  | (t, Ok a) => (t, Ok a)
  | (t, Raise e) => let '(t', r) := handler e in (t ++ t', r)
  end.

Definition asked {A} (v : V A) : list service_call := v.1.
Definition returned {A} (v : V A) : result A := v.2.

(** ** More builtins *)

(** [s.strip()] *)
Fixpoint lstrip (s : string) : string :=
  match s with
  | EmptyString => EmptyString
  | String c s' => if is_space c then lstrip s' else s
  end.

Fixpoint rstrip (s : string) : string :=
  match s with
  | EmptyString => EmptyString
  | String c s' =>
      match rstrip s' with
      | EmptyString => if is_space c then EmptyString else String c EmptyString
      | t => String c t
      end
  end.

Definition py_strip (s : string) : string := rstrip (lstrip s).

(** [querydict.getlist(k)] *)
Definition qd_getlist (q : list (string * string)) (k : string) : list string :=
  snd <$> filter (λ kv, kv.1 = k) q.

(** the items of [for x in v]; a mapping gives its keys (in the order of the
    map, which nothing below depends on) *)
Definition py_iter (v : value) : result (list value) :=
  match v with
  | VList l => Ok l
  | VStr s => Ok ((λ c, VStr (String c "")) <$> list_ascii_of_string s)
  | VDict d => Ok ((λ kv, VStr kv.1) <$> map_to_list d)
  | _ => Raise (Exn TypeError
      ("'" +:+ type_name v +:+ "' object is not iterable"))
  end.

(** run [f] over a list, stopping at the first exception *)
Fixpoint for_each {A B} (f : A → result B) (l : list A) : result (list B) :=
  match l with
  | [] => Ok []
  | x :: l' =>
      match f x with
      | Ok y =>
          match for_each f l' with
          | Ok ys => Ok (y :: ys)
          | Raise e => Raise e
          end
      | Raise e => Raise e
      end
  end.

Section OtherViews.

(** What a collaborator returns for a call. *)
Variable service : service_call → result value.

(** [int(s)] on a string: the number, or [ValueError]. *)
Variable py_int : string → result Z.

(** [str(v)] on numbers, [None] and containers. *)
Variable py_repr : value → string.

(** ** Search, list and count ([views.py], lines 379-424, 463-524, 1037-1069) *)

(** lines 497-508: one message as the front end wants it *)
Definition processed_email (email : value) : result value :=
  id ← py_get email "id" VNone;
  threadId ← py_get email "threadId" VNone;
  labelIds ← py_get email "labelIds" (VList []);
  snippet ← py_get email "snippet" (VStr "");
  from ← py_get email "from" (VStr "Unknown");
  to ← py_get email "to" (VStr "Unknown");
  subject ← py_get email "subject" (VStr "No Subject");
  date ← py_get email "date" (VStr "Unknown");
  size ← py_get email "sizeEstimate" (VInt 0);
  labels ← py_get email "labelIds" (VList []);
  mret (VDict (list_to_map
    [("id", id); ("threadId", threadId); ("labelIds", labelIds);
     ("snippet", snippet); ("from", from); ("to", to); ("subject", subject);
     ("date", date); ("size", size); ("labels", labels)])).

(** [request.GET.get(k)] as a Python value: the string, or [None] *)
Definition get_param (request : HttpRequest) (k : string) : value :=
  match qd_get (GET request) k with
  | Some s => VStr s
  | None => VNone
  end.

(** [int(request.GET.get(k, dflt))] *)
Definition int_param (request : HttpRequest) (k : string) (dflt : Z) : result Z :=
  match qd_get (GET request) k with
  | Some s => py_int s
  | None => Ok dflt
  end.

Definition search_error (msg : string) : value :=
  VDict (list_to_map [("status", VStr "error"); ("error", VStr msg)]).

Definition GmailSearchView_get (request : HttpRequest) : V HttpResponse :=
  guarded
    (let search_query := default "" (qd_get (GET request) "q") in
     page_size ← step (int_param request "page_size" 20);
     let page_token := get_param request "page_token" in
     if String.eqb (py_strip search_query) "" then
       mret (Response (search_error "Search query (q) parameter is required")
               HTTP_400_BAD_REQUEST)
     else
       let call := search_emails_page (user_id request) (VStr search_query)
                     (VInt page_size) page_token in
       result ← ask call (service call);
       failed ← step (py_in "error" result);
       if (failed : bool) then
         error ← step (py_getitem result "error");
         mret (Response
                 (VDict (list_to_map [("status", VStr "error"); ("error", error)]))
                 HTTP_400_BAD_REQUEST)
       else
         messages ← step (py_get result "messages" (VList []));
         emails ← step (py_iter messages);
         processed_emails ← step (for_each processed_email emails);
         count ← step (py_get result "resultSizeEstimate" (VInt 0));
         next ← step (py_get result "nextPageToken" VNone);
         mret (Response
                 (VDict (list_to_map
                    [("results", VList processed_emails);
                     ("count", count);
                     ("next", next);
                     ("previous", VNone);
                     ("query", VStr search_query)]))
                 HTTP_200_OK))
    (λ e, mret (Response (search_error ("Search failed: " +:+ exn_str e))
                  HTTP_500_INTERNAL_SERVER_ERROR)).

(** lines 392-397: the query of the labels asked for *)
Definition label_query (label_ids : list string) : string :=
  String.concat " " ((λ label_id, "label:" +:+ label_id) <$> label_ids).

Definition GmailEmailListView_get (request : HttpRequest) : V HttpResponse :=
  guarded
    (page_size ← step (int_param request "page_size" 20);
     let page_token := get_param request "page_token" in
     let label_ids := qd_getlist (GET request) "label_ids" in
     let query := label_query label_ids in
     let call := search_emails_page (user_id request) (VStr query)
                   (VInt page_size) page_token in
     result ← ask call (service call);
     failed ← step (py_in "error" result);
     if (failed : bool) then
       error ← step (py_getitem result "error");
       mret (Response
               (VDict (list_to_map [("status", VStr "error"); ("error", error)]))
               HTTP_400_BAD_REQUEST)
     else
       messages ← step (py_get result "messages" (VList []));
       count ← step (py_get result "resultSizeEstimate" (VInt 0));
       next ← step (py_get result "nextPageToken" VNone);
       mret (Response
               (VDict (list_to_map
                  [("results", messages);
                   ("count", count);
                   ("next", next);
                   ("previous", VNone)]))
               HTTP_200_OK))
    (λ e, mret (Response (search_error ("Failed to list emails: " +:+ exn_str e))
                  HTTP_500_INTERNAL_SERVER_ERROR)).

Definition GmailEmailCountView_get (request : HttpRequest) : V HttpResponse :=
  guarded
    (let query := default "" (qd_get (GET request) "q") in
     if String.eqb (py_strip query) "" then
       mret (Response (error_body "Query (q) parameter is required")
               HTTP_400_BAD_REQUEST)
     else
       let call := get_quick_email_estimate (user_id request) (VStr query) in
       result ← ask call (service call);
       failed ← step (py_in "error" result);
       if (failed : bool) then mret (Response result HTTP_400_BAD_REQUEST)
       else
         count ← step (py_getitem result "count");
         is_estimate ← step (py_get result "is_estimate" (VBool true));
         mret (Response
                 (VDict (list_to_map
                    [("count", count);
                     ("is_estimate", is_estimate);
                     ("query", VStr query)]))
                 HTTP_200_OK))
    (λ e, mret (Response (failure_body "Failed to count emails" e)
                  HTTP_500_INTERNAL_SERVER_ERROR)).

(** ** Authorisation URL, token status and revocation ([views.py], lines
    106-134, 231-308) *)



(** A row of [GoogleOAuthToken]: the columns the status view reads, and what
    [token.is_expired()] gives. *)
Record TokenRow := {
  is_expired : result value;
  scopes : value;
  created_at : value;
  updated_at : value
}.

(** [GoogleOAuthToken.objects.get(user=u)]: the row, or [DoesNotExist]. *)
Variable token_row : Z → result TokenRow.

(** lines 240-258: the connectivity probe of the status view *)
Definition probe_connection (uid : Z) : V (bool * value) :=
  guarded
    (gmail_service ← ask (create_gmail_service uid) (service (create_gmail_service uid));
     match gmail_service with
     | VNone => mret (false, VNone)
     | _ =>
         profile ← ask (getProfile uid) (service (getProfile uid));
         email_address ← step (py_get profile "emailAddress" VNone);
         messages_total ← step (py_get profile "messagesTotal" (VInt 0));
         threads_total ← step (py_get profile "threadsTotal" (VInt 0));
         mret (true,
               VDict (list_to_map
                 [("email_address", email_address);
                  ("messages_total", messages_total);
                  ("threads_total", threads_total)]))
     end)
    (λ _, mret (false, VNone)).

Definition GoogleTokenStatusView_get (request : HttpRequest) : V HttpResponse :=
  guarded
    (let uid := user_id request in
     token ← ask (GoogleOAuthToken_objects_get uid) (token_row uid);
     '(is_connected, gmail_info) ← probe_connection uid;
     expired ← step (is_expired token);
     mret (Response
             (VDict (list_to_map
                [("has_token", VBool true);
                 ("is_expired", expired);
                 ("is_connected", VBool is_connected);
                 ("scopes", scopes token);
                 ("created_at", created_at token);
                 ("updated_at", updated_at token);
                 ("gmail_info", gmail_info)]))
             HTTP_200_OK))
    (λ e,
       if bool_decide (exn_cls e = DoesNotExist) then
         mret (Response
                 (VDict (list_to_map
                    [("has_token", VBool false);
                     ("is_expired", VNone);
                     ("is_connected", VBool false);
                     ("scopes", VList []);
                     ("message",
                      VStr "No Gmail authorization found. Please authorize first.");
                     ("gmail_info", VNone)]))
                 HTTP_200_OK)
       else step (Raise e)).


(** ** Connectivity test ([views.py], lines 316-376) *)

Definition connectivity_failure (error : value) (message : string) : value :=
  VDict (list_to_map
    [("status", VStr "error"); ("connected", VBool false);
     ("error", error); ("message", VStr message)]).

Definition connectivity_success (profile : value) (message : string) : value :=
  VDict (list_to_map
    [("status", VStr "success"); ("connected", VBool true);
     ("gmail_profile", profile); ("message", VStr message)]).

Definition GmailConnectivityTestView_get (request : HttpRequest) : V HttpResponse :=
  guarded
    (let call := test_gmail_connectivity (user_id request) in
     connectivity_result ← ask call (service call);
     connected ← step (py_getitem connectivity_result "connected");
     if truthy connected then
       profile ← step (py_getitem connectivity_result "profile");
       mret (Response (connectivity_success profile "Gmail API connection successful")
               HTTP_200_OK)
     else
       error ← step (py_getitem connectivity_result "error");
       mret (Response (connectivity_failure error "Gmail API connection failed")
               HTTP_400_BAD_REQUEST))
    (λ e, mret (Response
                  (connectivity_failure (VStr (exn_str e)) "Connectivity test failed")
                  HTTP_500_INTERNAL_SERVER_ERROR)).

Definition GmailConnectivityTestView_post (request : HttpRequest) : V HttpResponse :=
  guarded
    (let uid := user_id request in
     gmail_service ← ask (get_service_force_refresh uid)
                       (service (get_service_force_refresh uid));
     if truthy gmail_service then
       connectivity_result ← ask (test_gmail_connectivity uid)
                               (service (test_gmail_connectivity uid));
       profile ← step (py_getitem connectivity_result "profile");
       mret (Response
               (connectivity_success profile "Gmail connection refreshed successfully")
               HTTP_200_OK)
     else
       error ← ask (get_last_error uid) (service (get_last_error uid));
       mret (Response (connectivity_failure error "Failed to refresh Gmail connection")
               HTTP_400_BAD_REQUEST))
    (λ e, mret (Response
                  (connectivity_failure (VStr (exn_str e)) "Connection refresh failed")
                  HTTP_500_INTERNAL_SERVER_ERROR)).

(** ** Single delete and recover, preview, rules, undo and statistics
    ([views.py], lines 588-636, 868-1035) *)

(** What these views do with the mapping a manager returns: with an
    ['error'] key it goes back as it is with status 400, otherwise [wrap]
    makes the 200 body. *)
Definition answer_from (answer : value) (wrap : value → result value)
    : V HttpResponse :=
  failed ← step (py_in "error" answer);
  if (failed : bool) then mret (Response answer HTTP_400_BAD_REQUEST)
  else
    body ← step (wrap answer);
    mret (Response body HTTP_200_OK).

Definition as_data (answer : value) : result value :=
  Ok (VDict (list_to_map [("status", VStr "success"); ("data", answer)])).

Definition GmailLabelsView_get (request : HttpRequest) : V HttpResponse :=
  guarded
    (let call := get_labels (user_id request) in
     result ← ask call (service call);
     answer_from result as_data)
    (λ e, mret (Response (failure_body "Failed to get labels" e)
                  HTTP_500_INTERNAL_SERVER_ERROR)).

Definition EmailDeleteView_delete (request : HttpRequest) (message_id : string)
    : V HttpResponse :=
  guarded
    (let permanent := default (VBool false) (data request !! "permanent") in
     let call := delete_single_email (user_id request) (VStr message_id) permanent in
     result ← ask call (service call);
     answer_from result as_data)
    (λ e, mret (Response (failure_body "Delete operation failed" e)
                  HTTP_500_INTERNAL_SERVER_ERROR)).

Definition EmailRecoverView_post (request : HttpRequest) (message_id : string)
    : V HttpResponse :=
  guarded
    (let call := recover_email (user_id request) (VStr message_id) in
     result ← ask call (service call);
     answer_from result as_data)
    (λ e, mret (Response (failure_body "Recover operation failed" e)
                  HTTP_500_INTERNAL_SERVER_ERROR)).

Definition EmailPreviewView_post (request : HttpRequest) : V HttpResponse :=
  guarded
    (let search_query := default (VStr "") (data request !! "q") in
     let sample_size := default (VInt 20) (data request !! "max_results") in
     if negb (truthy search_query) then
       mret (Response (error_body "q parameter required") HTTP_400_BAD_REQUEST)
     else
       let call := preview_deletion_query (user_id request) search_query sample_size in
       result ← ask call (service call);
       answer_from result
         (λ result,
            emails ← py_get result "preview_emails" (VList []);
            total_estimate ← py_get result "total_count" (VInt 0);
            sample_count ← py_get result "sample_size" (VInt 0);
            storage ← py_get result "estimated_storage_mb" (VInt 0);
            Ok (VDict (list_to_map
              [("status", VStr "success");
               ("emails", emails);
               ("total_estimate", total_estimate);
               ("sample_count", sample_count);
               ("estimated_deletion_time",
                VStr (py_str py_repr storage +:+ " MB"))]))))
    (λ e, mret (Response (failure_body "Preview failed" e)
                  HTTP_500_INTERNAL_SERVER_ERROR)).

Definition DeletionRulesView_get (request : HttpRequest) : V HttpResponse :=
  guarded
    (let call := get_user_rules (user_id request) in
     rules ← ask call (service call);
     mret (Response
             (VDict (list_to_map [("status", VStr "success"); ("rules", rules)]))
             HTTP_200_OK))
    (λ e, mret (Response (failure_body "Failed to get rules" e)
                  HTTP_500_INTERNAL_SERVER_ERROR)).

Definition DeletionRulesView_post (request : HttpRequest) : V HttpResponse :=
  guarded
    (let rule_config := VDict (data request) in
     let call := create_deletion_rule (user_id request) rule_config in
     result ← ask call (service call);
     answer_from result as_data)
    (λ e, mret (Response (failure_body "Failed to create rule" e)
                  HTTP_500_INTERNAL_SERVER_ERROR)).

Definition ExecuteRuleView_post (request : HttpRequest) (rule_id : string)
    : V HttpResponse :=
  guarded
    (let call := execute_rule (user_id request) (VStr rule_id) in
     result ← ask call (service call);
     answer_from result as_data)
    (λ e, mret (Response (failure_body "Failed to execute rule" e)
                  HTTP_500_INTERNAL_SERVER_ERROR)).

Definition UndoOperationView_get (request : HttpRequest) : V HttpResponse :=
  guarded
    (let call := get_undo_history (user_id request) in
     undo_points ← ask call (service call);
     mret (Response
             (VDict (list_to_map
                [("status", VStr "success"); ("undo_points", undo_points)]))
             HTTP_200_OK))
    (λ e, mret (Response (failure_body "Failed to get undo history" e)
                  HTTP_500_INTERNAL_SERVER_ERROR)).

Definition UndoOperationView_post (request : HttpRequest) (undo_id : string)
    : V HttpResponse :=
  guarded
    (let call := execute_undo (user_id request) (VStr undo_id) in
     result ← ask call (service call);
     answer_from result
       (λ result,
          Ok (VDict (list_to_map
            [("status", VStr "success");
             ("data", result);
             ("message", VStr "Undo operation completed successfully")]))))
    (λ e, mret (Response (failure_body "Undo operation failed" e)
                  HTTP_500_INTERNAL_SERVER_ERROR)).


(** ** Logout ([views.py], lines 56-72) *)

(** What [RefreshToken(t).blacklist()] comes to: done, a [TokenError], or
    another exception. *)
Inductive blacklisting :=
| Blacklisted
| TokenError (msg : string)
| Crashed (e : exn).

Variable blacklist_token : value → blacklisting.

Definition UserLogoutView_post (request : HttpRequest) : V HttpResponse :=
  let refresh_token := default VNone (data request !! "refresh") in
  let done :=
    Response (VDict {[ "message" := VStr "Logout successful" ]}) HTTP_200_OK in
  if truthy refresh_token then
    ask (blacklist refresh_token)
      match blacklist_token refresh_token with
      | Blacklisted => Ok done
      | TokenError _ =>
          Ok (Response (VDict {[ "error" := VStr "Invalid token" ]})
                HTTP_400_BAD_REQUEST)
      | Crashed e => Raise e
      end
  else mret done.

End OtherViews.

(** * The routes of [urls.py] *)

Inductive view_class :=
| UserRegistrationView | UserLoginView | UserLogoutView | TokenRefreshView
| ProfileView
| GoogleAuthURLView | GoogleOAuthCallbackView | GoogleTokenStatusView
| GoogleTokenRevokeView | GmailConnectivityTestView
| GmailEmailListView | GmailEmailMetadataView | GmailSearchView | GmailLabelsView
| EmailDeleteView | EmailRecoverView | BulkEmailDeleteView | BulkEmailRecoverView
| TaskStatusView | DeleteByQueryView | RecoverByQueryView
| EmailPreviewView | DeletionRulesView | ExecuteRuleView | UndoOperationView
| EmailStatsView | GmailEmailCountView.

Global Instance view_class_eq_dec : EqDecision view_class.
Proof. solve_decision. Defined.

(** [path(route, view, name=...)] *)
Record url_pattern := path {
  route : string;
  view : view_class;
  name : string
}.

Definition urlpatterns : list url_pattern := [
  path "auth/register/" UserRegistrationView "user_register";
  path "auth/login/" UserLoginView "user_login";
  path "auth/logout/" UserLogoutView "user_logout";
  path "auth/refresh/" TokenRefreshView "token_refresh";
  path "profile/" ProfileView "user_profile";
  path "auth/google/url/" GoogleAuthURLView "google_auth_url";
  path "auth/google/callback/" GoogleOAuthCallbackView "google_callback";
  path "auth/google/status/" GoogleTokenStatusView "google_token_status";
  path "auth/google/revoke/" GoogleTokenRevokeView "google_token_revoke";
  path "gmail/connectivity/" GmailConnectivityTestView "gmail_connectivity";
  path "gmail/emails/" GmailEmailListView "gmail_emails";
  path "gmail/emails/metadata/" GmailEmailMetadataView "gmail_email_metadata";
  path "gmail/search/" GmailSearchView "gmail_search";
  path "gmail/labels/" GmailLabelsView "gmail_labels";
  path "gmail/emails/delete/<str:message_id>/" EmailDeleteView "email_delete";
  path "gmail/emails/recover/<str:message_id>/" EmailRecoverView "email_recover";
  path "gmail/emails/bulk-delete/" BulkEmailDeleteView "bulk_email_delete";
  path "gmail/emails/bulk-recover/" BulkEmailRecoverView "bulk_email_recover";
  path "tasks/<str:task_id>/" TaskStatusView "task_status";
  path "gmail/delete-by-query/" DeleteByQueryView "query_email_delete";
  path "gmail/recover-by-query/" RecoverByQueryView "query_email_recover";
  path "gmail/preview/" EmailPreviewView "email_preview";
  path "gmail/rules/" DeletionRulesView "deletion_rules";
  path "gmail/rules/<str:rule_id>/execute/" ExecuteRuleView "execute_rule";
  path "gmail/undo/" UndoOperationView "undo_operations";
  path "gmail/undo/<str:undo_id>/" UndoOperationView "execute_undo";
  path "gmail/stats/" EmailStatsView "email_stats";
  path "gmail/count/" GmailEmailCountView "gmail_email_count"
].

(** ** How Django reads a route

    A route is literal text with parameters [<converter:name>] in it; the
    [str] converter, the only one the routes use, takes a non-empty run of
    characters other than ['/'].  A path matches a route when it is the
    literal text with such a run in place of each parameter, from its first
    character to its last. *)

Inductive part :=
| Lit (text : string)
| Param (converter name : string).

(** the state of the scan of a route: in literal text, or inside [<...>]
    before or after the colon *)
Inductive scan :=
| InText (text : string)
| InConverter (converter : string)
| InName (converter name : string).

Definition push (s : string) (c : ascii) : string := s +:+ String c "".

Definition lit_then (text : string) (ps : list part) : list part :=
  if String.eqb text "" then ps else Lit text :: ps.

Fixpoint parts_from (s : string) (st : scan) : list part :=
  match s, st with
  | EmptyString, InText text => lit_then text []
  | EmptyString, InConverter c => [Lit ("<" +:+ c)]
  | EmptyString, InName c n => [Lit ("<" +:+ c +:+ ":" +:+ n)]
  | String c s', InText text =>
      if Ascii.eqb c "<" then lit_then text (parts_from s' (InConverter ""))
      else parts_from s' (InText (push text c))
  | String c s', InConverter conv =>
      if Ascii.eqb c ":" then parts_from s' (InName conv "")
      else if Ascii.eqb c ">" then Param "str" conv :: parts_from s' (InText "")
      else parts_from s' (InConverter (push conv c))
  | String c s', InName conv n =>
      if Ascii.eqb c ">" then Param conv n :: parts_from s' (InText "")
      else parts_from s' (InName conv (push n c))
  end.

Definition parts_of (route : string) : list part := parts_from route (InText "").

(** [s] without the prefix [p], when it starts with it *)
Fixpoint strip_prefix (p s : string) : option string :=
  match p, s with
  | EmptyString, _ => Some s
  | String a p', String b s' => if Ascii.eqb a b then strip_prefix p' s' else None
  | String _ _, EmptyString => None
  end.

(** the longest start of [s] without ['/'], and the rest *)
Fixpoint until_slash (s : string) : string * string :=
  match s with
  | EmptyString => (EmptyString, EmptyString)
  | String c s' =>
      if Ascii.eqb c "/" then (EmptyString, s)
      else let '(seg, rest) := until_slash s' in (String c seg, rest)
  end.

(** the keyword arguments a path gives a route, when it matches *)
Fixpoint match_parts (ps : list part) (url : string)
    : option (list (string * string)) :=
  match ps with
  | [] => if String.eqb url "" then Some [] else None
  | Lit text :: ps' =>
      match strip_prefix text url with
      | Some rest => match_parts ps' rest
      | None => None
      end
  | Param converter name :: ps' =>
      if String.eqb converter "str" then
        let '(seg, rest) := until_slash url in
        if String.eqb seg "" then None
        else
          match match_parts ps' rest with
          | Some kwargs => Some ((name, seg) :: kwargs)
          | None => None
          end
      else None
  end.

(** the first pattern of the list that matches, with its arguments *)
Fixpoint resolve_in (patterns : list url_pattern) (url : string)
    : option (url_pattern * list (string * string)) :=
  match patterns with
  | [] => None
  | p :: rest =>
      match match_parts (parts_of (route p)) url with
      | Some kwargs => Some (p, kwargs)
      | None => resolve_in rest url
      end
  end.

Definition resolve (url : string) : option (url_pattern * list (string * string)) :=
  resolve_in urlpatterns url.

(** ** What a match means *)

Fixpoint has_slash (s : string) : bool :=
  match s with
  | EmptyString => false
  | String c s' => Ascii.eqb c "/" || has_slash s'
  end.

Inductive matches : list part → string → list (string * string) → Prop :=
| matches_end : matches [] "" []
| matches_lit text ps rest kwargs :
    matches ps rest kwargs →
    matches (Lit text :: ps) (text +:+ rest) kwargs
| matches_str name ps seg rest kwargs :
    seg ≠ "" → has_slash seg = false →
    matches ps rest kwargs →
    matches (Param "str" name :: ps) (seg +:+ rest) ((name, seg) :: kwargs).

(** where a run without ['/'] can end: at the end of the path or before a ['/'] *)
Definition at_slash (rest : string) : Prop :=
  rest = "" ∨ ∃ r, rest = String "/" r.

(** a route in which every parameter is a [str] followed by the end or by
    literal text that starts with ['/'] *)
Fixpoint slash_after_params (ps : list part) : bool :=
  match ps with
  | [] => true
  | Lit _ :: ps' => slash_after_params ps'
  | Param converter _ :: ps' =>
      String.eqb converter "str" &&
      match ps' with
      | [] => true
      | Lit (String c _) :: _ => Ascii.eqb c "/"
      | _ => false
      end && slash_after_params ps'
  end.

(** ** The handlers of the views *)

Inductive http_method := GET_ | POST_ | PUT_ | PATCH_ | DELETE_.

(** what a handler takes after [request]: named arguments, or anything
    ([*args, **kwargs], as the generic views of the framework do) *)
Inductive signature :=
| Takes (names : list string)
| TakesAny.

(** the handlers each view class defines, with their signatures *)
Definition handler (v : view_class) (m : http_method) : option signature :=
  match v, m with
  | UserLoginView, POST_ => Some (Takes [])
  | UserLogoutView, POST_ => Some (Takes [])
  | UserRegistrationView, POST_ => Some TakesAny
  | TokenRefreshView, POST_ => Some TakesAny
  | ProfileView, (GET_ | PUT_ | PATCH_) => Some TakesAny
  | GoogleAuthURLView, GET_ => Some (Takes [])
  | GoogleOAuthCallbackView, GET_ => Some (Takes [])
  | GoogleTokenStatusView, GET_ => Some (Takes [])
  | GoogleTokenRevokeView, DELETE_ => Some (Takes [])
  | GmailConnectivityTestView, (GET_ | POST_) => Some (Takes [])
  | GmailEmailListView, GET_ => Some (Takes [])
  | GmailEmailMetadataView, POST_ => Some (Takes [])
  | GmailSearchView, (GET_ | POST_) => Some (Takes [])
  | GmailLabelsView, GET_ => Some (Takes [])
  | EmailDeleteView, DELETE_ => Some (Takes ["message_id"])
  | EmailRecoverView, POST_ => Some (Takes ["message_id"])
  | BulkEmailDeleteView, POST_ => Some (Takes [])
  | BulkEmailRecoverView, POST_ => Some (Takes [])
  | TaskStatusView, GET_ => Some (Takes ["task_id"])
  | DeleteByQueryView, POST_ => Some (Takes [])
  | RecoverByQueryView, POST_ => Some (Takes [])
  | EmailPreviewView, POST_ => Some (Takes [])
  | DeletionRulesView, (GET_ | POST_) => Some (Takes [])
  | ExecuteRuleView, POST_ => Some (Takes ["rule_id"])
  | UndoOperationView, GET_ => Some (Takes [])
  | UndoOperationView, POST_ => Some (Takes ["undo_id"])
  | EmailStatsView, GET_ => Some (Takes [])
  | GmailEmailCountView, GET_ => Some (Takes [])
  | _, _ => None
  end.

(** the names of the parameters of a route *)
Definition param_names (ps : list part) : list string :=
  omap (λ p, match p with Param _ n => Some n | Lit _ => None end) ps.

(** [handler(request, **kwargs)] can be called: every keyword is a parameter
    of the handler and every parameter gets a keyword *)
Definition accepts (s : signature) (kwargs : list string) : bool :=
  match s with
  | Takes names => bool_decide (names ≡ₚ kwargs)
  | TakesAny => true
  end.

Definition http_methods : list http_method := [GET_; POST_; PUT_; PATCH_; DELETE_].

(** the pairs of a route and a method whose handler cannot take the
    arguments of the route *)
Definition misrouted : list (string * http_method) :=
  p ← urlpatterns;
  m ← http_methods;
  match handler (view p) m with
  | Some s =>
      if accepts s (param_names (parts_of (route p))) then [] else [(name p, m)]
  | None => []
  end.

(** ** Vocabulary of the further properties *)

(** the task a bulk view submits for a request, given the batch size *)
Definition bulk_task (view : bulk_view) (request : HttpRequest) (batch : value)
    : task_call :=
  match view with
  | BulkDelete =>
      bulk_delete_emails_task (user_id request) (requested_ids request)
        (requested_permanent request) batch
  | BulkRecover =>
      bulk_recover_emails_task (user_id request) (requested_ids request) batch
  end.

(** the body a bulk view answers with *)
Definition bulk_started (view : bulk_view) (request : HttpRequest)
    (task_id : string) (n : Z) : value :=
  match view with
  | BulkDelete => started_delete task_id n (requested_permanent request)
  | BulkRecover => started_recover task_id n
  end.

(** the ['error'] text of the 500 response of each view *)
Definition bulk_failure (view : bulk_view) : string :=
  match view with
  | BulkDelete => "Failed to start bulk deletion"
  | BulkRecover => "Failed to start bulk recovery"
  end.

Definition query_failure (view : query_view) : string :=
  match view with
  | DeleteByQuery => "Failed to start deletion by query"
  | RecoverByQuery => "Failed to start recovery by query"
  end.

(** a view failed inside: the 500 response [msg] with [str(e)] as details *)
Definition failed (m : M HttpResponse) (t : list event) (msg : string) (e : exn)
    : Prop :=
  m = (t, Ok (Response (failure_body msg e) HTTP_500_INTERNAL_SERVER_ERROR)).

(** more of the sample environment *)
Definition broker_down : task_call → result string :=
  λ _, Raise (Exn OtherError "Error 111 connecting to localhost:6379.").

Definition batch_request (batch_size : value) : HttpRequest :=
  {| user_id := 1;
     data := list_to_map [("message_ids", ids 2); ("batch_size", batch_size)];
     GET := [] |}.

(** the body a by-query view answers with *)
Definition query_started (py_repr : value → string) (view : query_view)
    (request : HttpRequest) (task_id : string) : value :=
  match view with
  | DeleteByQuery =>
      VDict (list_to_map
        [("status", VStr "started"); ("task_id", VStr task_id);
         ("search_query", requested_query request);
         ("max_emails", requested_max_emails request);
         ("permanent", requested_permanent request);
         ("message",
          VStr ("Deletion started for up to "
                +:+ py_str py_repr (requested_max_emails request)
                +:+ " emails. Use task_id to check progress."))])
  | RecoverByQuery =>
      VDict (list_to_map
        [("status", VStr "started"); ("task_id", VStr task_id);
         ("search_query", requested_query request);
         ("max_emails", requested_max_emails request);
         ("message",
          VStr ("Recovery started for up to "
                +:+ py_str py_repr (requested_max_emails request)
                +:+ " emails. Use task_id to check progress."))])
  end.

Definition max_request (max_emails : value) : HttpRequest :=
  {| user_id := 1;
     data := list_to_map [("q", VStr "older_than:1y"); ("max_emails", max_emails)];
     GET := [] |}.

Definition gmail_answers (answer : result value) : Z → gmail_op → result value :=
  λ _ _, answer.

Definition filters_to (query : value) : dict → result value := λ _, Ok query.

(** what the callback writes into the credential row: the access token of
    the exchange, the scopes granted in the callback, the fixed token
    endpoint, under the seven columns of the row *)
Definition stored_by_callback (request : HttpRequest) (access_token : value)
    (defaults : dict) : Prop :=
  defaults !! "access_token" = Some access_token ∧
  defaults !! "scopes" = Some (VList (VStr <$> granted_scopes request)) ∧
  defaults !! "token_uri" = Some (VStr "https://oauth2.googleapis.com/token") ∧
  dom defaults =
    {[ "access_token"; "refresh_token"; "token_uri"; "client_id";
       "client_secret"; "scopes"; "expiry" ]}.

(** the callback carries no [error], a [code], and a [state] that names the
    user [uid] *)
Definition names_user
    (py_int : string → result Z) (User_objects_get : Z → result User)
    (request : HttpRequest) (code : string) (uid : Z) : Prop :=
  opt_truthy (qd_get (GET request) "error") = false ∧
  qd_get (GET request) "code" = Some code ∧ code ≠ "" ∧
  ∃ state n user,
    qd_get (GET request) "state" = Some state ∧ state ≠ "" ∧
    py_int state = Ok n ∧ User_objects_get n = Ok user ∧ pk user = uid.

(** the callback got through every check before the upsert for the user
    [uid], with [code] exchanged for a response holding [access_token] *)
Definition passes_callback_checks
    (py_int : string → result Z) (User_objects_get : Z → result User)
    (exchange_code_for_tokens : string → result value)
    (request : HttpRequest) (code : string) (uid : Z) (access_token : value)
    : Prop :=
  names_user py_int User_objects_get request code uid ∧
  (∃ token_response,
     exchange_code_for_tokens code = Ok token_response ∧
     py_getitem token_response "access_token" = Ok access_token) ∧
  "https://www.googleapis.com/auth/gmail.modify" ∈ granted_scopes request.

Definition oauth_success (frontend_url gmail_address : string) : HttpResponse :=
  Redirect (frontend_url +:+ "/dashboard?oauth=success&email=" +:+ gmail_address).

(** a string holds a white-space character *)
Fixpoint has_space (s : string) : bool :=
  match s with
  | EmptyString => false
  | String c s' => is_space c || has_space s'
  end.

(** a scope as the provider names one: not empty, no white space *)
Definition is_token (w : string) : Prop := w ≠ "" ∧ has_space w = false.

(** the row the sample callback writes *)
Definition sample_stored : dict :=
  list_to_map
    [("access_token", VStr "ya29"); ("refresh_token", VNone);
     ("token_uri", VStr "https://oauth2.googleapis.com/token");
     ("client_id", VStr "client"); ("client_secret", VStr "secret");
     ("scopes",
      VList [VStr "openid"; VStr "https://www.googleapis.com/auth/gmail.modify"]);
     ("expiry", VInt 3599)].

Definition granting_request : HttpRequest :=
  callback_request
    [("state", "42"); ("code", "4/0Ab");
     ("scope", "openid https://www.googleapis.com/auth/gmail.modify")].

(** a string of white space only (the empty string included) *)
Fixpoint all_space (s : string) : bool :=
  match s with
  | EmptyString => true
  | String c s' => is_space c && all_space s'
  end.

(** the fields of a processed message *)
Definition processed_fields : gset string :=
  {[ "id"; "threadId"; "labelIds"; "snippet"; "from"; "to"; "subject"; "date";
     "size"; "labels" ]}.

(** a processed message against the message it was made from *)
Definition processed_from (message entry : value) : Prop :=
  ∃ m e, message = VDict m ∧ entry = VDict e ∧
    dom e = processed_fields ∧
    e !! "id" = Some (default VNone (m !! "id")) ∧
    e !! "threadId" = Some (default VNone (m !! "threadId")) ∧
    e !! "labelIds" = Some (default (VList []) (m !! "labelIds")) ∧
    e !! "snippet" = Some (default (VStr "") (m !! "snippet")) ∧
    e !! "from" = Some (default (VStr "Unknown") (m !! "from")) ∧
    e !! "to" = Some (default (VStr "Unknown") (m !! "to")) ∧
    e !! "subject" = Some (default (VStr "No Subject") (m !! "subject")) ∧
    e !! "date" = Some (default (VStr "Unknown") (m !! "date")) ∧
    e !! "size" = Some (default (VInt 0) (m !! "sizeEstimate")) ∧
    e !! "labels" = Some (default (VList []) (m !! "labelIds")).

Definition search_request (query : list (string * string)) : HttpRequest :=
  {| user_id := 1; data := ∅; GET := query |}.

Definition service_answers (answer : result value) : service_call → result value :=
  λ _, answer.







(** the views that hand a manager's mapping on, with the call each makes and
    the ['error'] text of its 500 response *)
Inductive manager_view :=
| Labels
| DeleteOne (message_id : string)
| RecoverOne (message_id : string)
| CreateRule
| ExecuteRule (rule_id : string)
| Undo (undo_id : string).

Definition manager_run (service : service_call → result value)
    (view : manager_view) (request : HttpRequest) : V HttpResponse :=
  match view with
  | Labels => GmailLabelsView_get service request
  | DeleteOne message_id => EmailDeleteView_delete service request message_id
  | RecoverOne message_id => EmailRecoverView_post service request message_id
  | CreateRule => DeletionRulesView_post service request
  | ExecuteRule rule_id => ExecuteRuleView_post service request rule_id
  | Undo undo_id => UndoOperationView_post service request undo_id
  end.

Definition manager_call (view : manager_view) (request : HttpRequest)
    : service_call :=
  match view with
  | Labels => get_labels (user_id request)
  | DeleteOne message_id =>
      delete_single_email (user_id request) (VStr message_id)
        (requested_permanent request)
  | RecoverOne message_id => recover_email (user_id request) (VStr message_id)
  | CreateRule => create_deletion_rule (user_id request) (VDict (data request))
  | ExecuteRule rule_id => execute_rule (user_id request) (VStr rule_id)
  | Undo undo_id => execute_undo (user_id request) (VStr undo_id)
  end.

Definition manager_failure (view : manager_view) : string :=
  match view with
  | Labels => "Failed to get labels"
  | DeleteOne _ => "Delete operation failed"
  | RecoverOne _ => "Recover operation failed"
  | CreateRule => "Failed to create rule"
  | ExecuteRule _ => "Failed to execute rule"
  | Undo _ => "Undo operation failed"
  end.

(** the profile the probe of the status view gets to read: there is a
    mailbox service (not [None]) and [getProfile] answers with a mapping *)
Definition readable_profile (service : service_call → result value) (uid : Z)
    : option dict :=
  match service (create_gmail_service uid) with
  | Ok VNone => None
  | Ok _ =>
      match service (getProfile uid) with
      | Ok (VDict profile) => Some profile
      | _ => None
      end
  | Raise _ => None
  end.

(** the [gmail_info] of a profile: its address and its two counters *)
Definition gmail_info_of (profile : dict) : value :=
  VDict (list_to_map
    [("email_address", default VNone (profile !! "emailAddress"));
     ("messages_total", default (VInt 0) (profile !! "messagesTotal"));
     ("threads_total", default (VInt 0) (profile !! "threadsTotal"))]).

Definition no_token : Z → result TokenRow :=
  λ _, Raise (Exn DoesNotExist "GoogleOAuthToken matching query does not exist.").

Definition sample_row : TokenRow :=
  {| is_expired := Ok (VBool false);
     scopes := VList [VStr "https://www.googleapis.com/auth/gmail.modify"];
     created_at := VStr "2025-01-01T00:00:00Z";
     updated_at := VStr "2025-01-02T00:00:00Z" |}.

Definition sample_profile : value :=
  VDict (list_to_map
    [("emailAddress", VStr "user@example.com"); ("messagesTotal", VInt 12);
     ("threadsTotal", VInt 9)]).

Definition refresh_request (refresh : value) : HttpRequest :=
  {| user_id := 1; data := {[ "refresh" := refresh ]}; GET := [] |}.

(** more sample answers *)
Definition two_messages : value :=
  VDict (list_to_map
    [("messages",
      VList [VDict (list_to_map [("id", VStr "m1"); ("labelIds", VList [VStr "INBOX"])]);
             VDict {[ "id" := VStr "m2" ]}]);
     ("resultSizeEstimate", VInt 2)]).

Definition two_emails : value :=
  VDict {[ "emails" := VList [VStr "a"; VStr "b"] ]}.

Definition estimate_of (n : Z) : value := VDict {[ "count" := VInt n ]}.

Definition not_connected : value :=
  VDict (list_to_map
    [("connected", VBool false); ("error", VStr "No valid credentials");
     ("profile", VNone)]).

Definition blank_request : HttpRequest :=
  {| user_id := 1; data := {[ "q" := VStr "   " ]}; GET := [("q", "   ")] |}.

(** * Properties *)

(** ** Every view answers *)

(** A body under [except Exception] whose handler returns always yields a
    response: the views wrapped this way never let an exception out. *)
Lemma try_except_answers {A} (body : M A) (handler : exn → M A) :
  (∀ e, ∃ a, outcome (handler e) = Ok a) →
  ∃ a, outcome (try_except body handler) = Ok a.
Proof.
  intros Hhandler. destruct body as [t [a|e]]; simpl; [by exists a|].
  destruct (Hhandler e) as [a Ha]. exists a.
  unfold outcome in *. by destruct (handler e).
Qed.

Lemma views_always_answer
    (delay : task_call → result string) (gmail : Z → gmail_op → result value)
    (py_repr : value → string) (build_search_query : dict → result value)
    (backend : string → result AsyncResult) (request : HttpRequest)
    (task_id : string) :
  (∀ view, ∃ resp, outcome (ids_post delay gmail view request) = Ok resp) ∧
  (∀ view, ∃ resp,
     outcome (criteria_post delay gmail py_repr build_search_query view request)
       = Ok resp) ∧
  (∃ resp, outcome (TaskStatusView_get backend py_repr task_id) = Ok resp).
Proof.
  split; [|split].
  - intros [[]|]; apply try_except_answers; intros e; by eexists.
  - intros [[]|]; apply try_except_answers; intros e; by eexists.
  - apply try_except_answers; intros e; by eexists.
Qed.

Lemma callback_always_answers
    (settings : Settings) (py_int : string → result Z)
    (User_objects_get : Z → result User)
    (exchange_code_for_tokens : string → result value)
    (expiry_after : value → result value)
    (update_or_create : Z → dict → result unit)
    (probe_gmail_address : Z → string) (request : HttpRequest) :
  ∃ url,
    outcome (GoogleOAuthCallbackView_get settings py_int User_objects_get
               exchange_code_for_tokens expiry_after update_or_create
               probe_gmail_address request) = Ok (Redirect url).
Proof.
  unfold GoogleOAuthCallbackView_get.
  destruct (opt_truthy (qd_get (GET request) "error")); [by eexists|].
  destruct (_ || _); [by eexists|].
  destruct (py_int _) as [n|e]; simpl.
  2: { destruct (bool_decide _); simpl; by eexists. }
  destruct (User_objects_get n) as [user|e]; simpl.
  2: { destruct (bool_decide _); simpl; by eexists. }
  destruct (exchange_code_for_tokens _) as [token_response|e]; simpl; [|by eexists].
  destruct (py_in "access_token" token_response) as [[]|e]; simpl; [|by eexists..].
  destruct (missing_scopes request); simpl; [|by eexists].
  destruct (py_in "expires_in" token_response) as [[]|e]; simpl; [| |by eexists].
  - destruct (py_getitem token_response "expires_in") as [seconds|e]; simpl;
      [|by eexists].
    destruct (expiry_after seconds) as [expiry|e]; simpl; [|by eexists].
    destruct (py_getitem token_response "access_token"); simpl; [|by eexists].
    destruct (py_get token_response "refresh_token" VNone); simpl; [|by eexists].
    destruct (setting _ (GOOGLE_OAUTH2_CLIENT_ID settings)); simpl; [|by eexists].
    destruct (setting _ (GOOGLE_OAUTH2_CLIENT_SECRET settings)); simpl; [|by eexists].
    destruct (update_or_create _ _); simpl; by eexists.
  - destruct (py_getitem token_response "access_token"); simpl; [|by eexists].
    destruct (py_get token_response "refresh_token" VNone); simpl; [|by eexists].
    destruct (setting _ (GOOGLE_OAUTH2_CLIENT_ID settings)); simpl; [|by eexists].
    destruct (setting _ (GOOGLE_OAUTH2_CLIENT_SECRET settings)); simpl; [|by eexists].
    destruct (update_or_create _ _); simpl; by eexists.
Qed.

(** ** Bulk delete and bulk recover *)

Section BulkProperties.

Variable delay : task_call → result string.



(** A request with a non-empty list of at most 10000 ids and a numeric batch
    size is accepted whenever the broker takes the task. *)
Lemma bulk_valid_is_accepted (view : bulk_view) request l b :
  data request !! "message_ids" = Some (VList l) →
  0 < Z.of_nat (length l) ≤ 10000 →
  num_gt_int (requested_batch_size request) 500 = Some b →
  (∀ call, ∃ task_id, delay call = Ok task_id) →
  accepted (bulk_post delay view request).
Proof.
  intros Hl [Hpos Hn] Hb Hbroker. apply Z.ltb_ge in Hn.
  destruct l as [|x l']; [simpl in Hpos; lia|].
  unfold requested_batch_size in Hb.
  destruct view; unfold accepted; simpl;
    unfold BulkEmailDeleteView_post, BulkEmailRecoverView_post, py_min;
    rewrite Hl, Hb; simpl in *; rewrite Hn; simpl.
  - destruct (Hbroker (bulk_delete_emails_task (user_id request) (VList (x :: l'))
        (default (VBool false) (data request !! "permanent"))
        (if b then VInt 500 else default (VInt 100) (data request !! "batch_size"))))
      as [tid ->].
    by eexists.
  - destruct (Hbroker (bulk_recover_emails_task (user_id request) (VList (x :: l'))
        (if b then VInt 500 else default (VInt 100) (data request !! "batch_size"))))
      as [tid ->].
    by eexists.
Qed.





(** C1. A bulk delete or bulk recover request whose [message_ids] list has
    more than 10000 entries is answered at once with the 400 response
    "Too many emails (max 10,000 per operation)", and no task is submitted:
    the list of outside calls is empty, whatever the broker would answer. *)
Theorem bulk_over_10000_ids_rejected
    (view : bulk_view) (request : HttpRequest) (l : list value) :
  data request !! "message_ids" = Some (VList l) →
  10000 < Z.of_nat (length l) →
  rejected (bulk_post delay view request)
    "Too many emails (max 10,000 per operation)".
Proof.
  intros Hl Hn.
  destruct view; unfold rejected, bulk_post, BulkEmailDeleteView_post,
    BulkEmailRecoverView_post; rewrite Hl.
  all: destruct l as [|x l']; [simpl in Hn; lia|].
  all: apply Z.ltb_lt in Hn; simpl in *; by rewrite Hn.
Qed.



End BulkProperties.

Lemma bulk_over_10000_ids_rejected_witness :
  10000 < Z.of_nat (length (replicate 10001 (VStr "m"))) ∧
  rejected (bulk_post broker_up BulkRecover (bulk_request (ids 10001)))
    "Too many emails (max 10,000 per operation)".
Proof.
  split; [vm_compute; reflexivity|].
  apply (bulk_over_10000_ids_rejected broker_up BulkRecover
           (bulk_request (ids 10001)) (replicate 10001 (VStr "m"))).
  - reflexivity.
  - vm_compute. reflexivity.
Defined.




(** ** The guards on ids, queries and counts *)

Section GuardProperties.

Variable delay : task_call → result string.
Variable gmail : Z → gmail_op → result value.
Variable py_repr : value → string.
Variable build_search_query : dict → result value.

(** A falsy [message_ids] never gets past the first guard. *)
Lemma falsy_ids_rejected (view : ids_view) (request : HttpRequest) :
  truthy (requested_ids request) = false →
  rejected (ids_post delay gmail view request) "message_ids required".
Proof.
  unfold requested_ids. intros Hfalsy.
  destruct view as [[]|]; unfold rejected; simpl;
    unfold BulkEmailDeleteView_post, BulkEmailRecoverView_post,
      GmailEmailMetadataView_post; by rewrite Hfalsy.
Qed.

(** C9. A bulk delete, bulk recover or metadata request whose [message_ids]
    is absent or the empty list is answered with the 400 response
    "message_ids required"; no task is submitted and the mailbox is not
    called. *)
Theorem empty_ids_rejected (view : ids_view) (request : HttpRequest) :
  data request !! "message_ids" = None ∨
  data request !! "message_ids" = Some (VList []) →
  rejected (ids_post delay gmail view request) "message_ids required".
Proof.
  intros Hids. apply falsy_ids_rejected. unfold requested_ids.
  by destruct Hids as [-> | ->].
Qed.

(** C5. A delete-by-query or recover-by-query request whose query is the
    empty string (or absent, which reads as the empty string), and an
    advanced search whose filters build to the empty string, are answered
    with a 400 response before anything is called outside: no task, no
    mailbox call. *)
Theorem empty_criteria_rejected (view : criteria_view) (request : HttpRequest) :
  criteria_of build_search_query view request = Ok (VStr "") →
  rejected (criteria_post delay gmail py_repr build_search_query view request)
    match view with
    | ByQuery _ => "q parameter required"
    | AdvancedSearch => "No valid search filters provided"
    end.
Proof.
  destruct view as [[]|]; unfold rejected; simpl; intros Hq.
  - injection Hq as Hq. unfold requested_query in Hq.
    unfold DeleteByQueryView_post. by rewrite Hq.
  - injection Hq as Hq. unfold requested_query in Hq.
    unfold RecoverByQueryView_post. by rewrite Hq.
  - unfold GmailSearchView_post. by rewrite Hq.
Qed.

(** C6, as amended.  A delete-by-query or recover-by-query request whose
    [max_emails] is above 10000 is answered with a 400 response and no task
    is submitted; a request with a non-empty query and [max_emails] at most
    10000 (1000 when the request has none) submits one task, with that
    [max_emails]. *)
Theorem query_max_emails_guard
    (view : query_view) (request : HttpRequest) (n : Z) :
  requested_max_emails request = VInt n →
  (10000 < n → ∃ msg, rejected (query_post delay py_repr view request) msg) ∧
  (n ≤ 10000 → truthy (requested_query request) = true →
     schedules (query_post delay py_repr view request) (query_task view request) ∧
     max_emails_of (query_task view request) = Some (VInt n)) ∧
  (data request !! "max_emails" = None → n = 1000).
Proof.
  intros Hmax. split; [|split].
  - intros Hn. apply Z.ltb_lt in Hn.
    destruct view; unfold rejected; simpl;
      unfold DeleteByQueryView_post, RecoverByQueryView_post;
      fold (requested_query request); fold (requested_max_emails request);
      rewrite Hmax; destruct (truthy (requested_query request)); simpl;
      rewrite ?Hn; eauto.
  - intros Hn Hq. apply Z.ltb_ge in Hn.
    destruct view; unfold schedules, query_task; simpl;
      unfold DeleteByQueryView_post, RecoverByQueryView_post;
      fold (requested_query request); fold (requested_max_emails request);
      fold (requested_permanent request);
      rewrite Hmax, Hq; simpl; rewrite Hn; simpl;
      by destruct (delay _).
  - intros Hnone. unfold requested_max_emails in Hmax. rewrite Hnone in Hmax.
    simpl in Hmax. congruence.
Qed.

(** C7, as amended.  A metadata request with more than 1000 ids is answered
    with the 400 response "Too many message IDs (max 1000)" and the mailbox
    is not called; a request with at least one and at most 1000 ids is
    passed on: the one outside call is [get_email_metadata] with those ids. *)
Theorem metadata_ids_guard (request : HttpRequest) (l : list value) :
  data request !! "message_ids" = Some (VList l) →
  (1000 < Z.of_nat (length l) →
     rejected (GmailEmailMetadataView_post gmail request)
       "Too many message IDs (max 1000)") ∧
  (0 < Z.of_nat (length l) ≤ 1000 →
     calls (GmailEmailMetadataView_post gmail request)
       = [Gmail (user_id request) (get_email_metadata (VList l))]).
Proof.
  intros Hl. unfold rejected, GmailEmailMetadataView_post. rewrite Hl. split.
  - intros Hn. destruct l as [|x l']; [simpl in Hn; lia|].
    apply Z.ltb_lt in Hn. simpl in *. by rewrite Hn.
  - intros [Hpos Hn]. destruct l as [|x l']; [simpl in Hpos; lia|].
    apply Z.ltb_ge in Hn. simpl in *. rewrite Hn. simpl.
    destruct (gmail _ _) as [result|e]; simpl; [|done].
    destruct (py_in _ _) as [[]|e]; simpl; [done| |done].
    destruct (py_getitem _ _) as [emails|e]; simpl; [|done].
    by destruct (py_len _).
Qed.

End GuardProperties.

Lemma empty_ids_rejected_witness :
  data empty_request !! "message_ids" = None ∧
  rejected (ids_post broker_up sample_gmail Metadata empty_request)
    "message_ids required".
Proof.
  split; [reflexivity|].
  apply (empty_ids_rejected broker_up sample_gmail Metadata empty_request).
  left. reflexivity.
Defined.

Lemma empty_criteria_rejected_witness :
  criteria_of no_filters AdvancedSearch empty_request = Ok (VStr "") ∧
  rejected (criteria_post broker_up sample_gmail sample_repr no_filters
              AdvancedSearch empty_request)
    "No valid search filters provided".
Proof.
  split; [reflexivity|].
  apply (empty_criteria_rejected broker_up sample_gmail sample_repr no_filters
           AdvancedSearch empty_request).
  reflexivity.
Defined.

Lemma query_max_emails_guard_witness :
  requested_max_emails (query_request "older_than:1y") = VInt 1000 ∧
  schedules (query_post broker_up sample_repr DeleteByQuery
               (query_request "older_than:1y"))
    (delete_by_query_task 1 (VStr "older_than:1y") (VInt 1000) (VBool false)).
Proof.
  split; [reflexivity|].
  destruct (query_max_emails_guard broker_up sample_repr DeleteByQuery
              (query_request "older_than:1y") 1000 eq_refl) as (_ & Hgo & _).
  apply Hgo; [lia | reflexivity].
Defined.

(** C6, as stated, fails: a request with [max_emails] at most 10000 (here
    the default, 1000) but no query is refused, and no task is submitted. *)
Lemma query_without_q_counterexample :
  requested_max_emails empty_request = VInt 1000 ∧
  rejected (query_post broker_up sample_repr DeleteByQuery empty_request)
    "q parameter required" ∧
  ¬ schedules (query_post broker_up sample_repr DeleteByQuery empty_request)
      (query_task DeleteByQuery empty_request).
Proof.
  split; [reflexivity|]. split; [reflexivity|].
  unfold schedules. vm_compute. discriminate.
Qed.

Lemma metadata_ids_guard_witness :
  0 < Z.of_nat (length (replicate 2 (VStr "m"))) ≤ 1000 ∧
  calls (GmailEmailMetadataView_post sample_gmail (bulk_request (ids 2)))
    = [Gmail 1 (get_email_metadata (ids 2))].
Proof.
  split; [simpl; lia|].
  destruct (metadata_ids_guard sample_gmail (bulk_request (ids 2))
              (replicate 2 (VStr "m")) eq_refl) as [_ Hpass].
  apply Hpass. simpl. lia.
Defined.

(** C7, as stated, fails: a request with no ids has at most 1000 of them,
    and is refused without a call to the mailbox. *)
Lemma metadata_no_ids_counterexample :
  Z.of_nat (length (@nil value)) ≤ 1000 ∧
  rejected (GmailEmailMetadataView_post sample_gmail (bulk_request (VList [])))
    "message_ids required" ∧
  calls (GmailEmailMetadataView_post sample_gmail (bulk_request (VList [])))
    ≠ [Gmail 1 (get_email_metadata (VList []))].
Proof.
  split; [simpl; lia|]. split; [reflexivity|].
  vm_compute. discriminate.
Qed.

(** ** Task status *)

Section StatusProperties.

Variable backend : string → result AsyncResult.
Variable py_repr : value → string.

Lemma status_unread task_id e :
  backend task_id = Raise e →
  TaskStatusView_get backend py_repr task_id
    = ([], Ok (Response (failure_body "Failed to get task status" e)
                 HTTP_500_INTERNAL_SERVER_ERROR)).
Proof. unfold TaskStatusView_get. by intros ->. Qed.

Lemma status_pending task_id r :
  backend task_id = Ok r → state r = "PENDING" →
  TaskStatusView_get backend py_repr task_id
    = ([], Ok (Response (pending_body task_id) HTTP_200_OK)).
Proof. unfold TaskStatusView_get. intros -> Hs. simpl. by rewrite Hs. Qed.

Lemma status_progress task_id r d :
  backend task_id = Ok r → state r = "PROGRESS" → info r = VDict d →
  TaskStatusView_get backend py_repr task_id
    = ([], Ok (Response
         (VDict (list_to_map
            [("task_id", VStr task_id); ("status", VStr "PROGRESS");
             ("progress",
              progress_body (default (VInt 0) (d !! "current"))
                (default (VInt 0) (d !! "total"))
                (default (VStr "Processing...") (d !! "message")))]))
         HTTP_200_OK)).
Proof.
  unfold TaskStatusView_get. intros -> Hs Hinfo. simpl. by rewrite Hs, Hinfo.
Qed.

Lemma status_success task_id r d :
  backend task_id = Ok r → state r = "SUCCESS" → info r = VDict d →
  TaskStatusView_get backend py_repr task_id
    = ([], Ok (Response
         (VDict (list_to_map
            [("task_id", VStr task_id); ("status", VStr "SUCCESS");
             ("result", VDict d);
             ("progress",
              progress_body (default (VInt 0) (d !! "total"))
                (default (VInt 0) (d !! "total"))
                (VStr "Completed successfully"))]))
         HTTP_200_OK)).
Proof.
  unfold TaskStatusView_get. intros -> Hs Hinfo. simpl. by rewrite Hs, Hinfo.
Qed.

Lemma status_not_a_mapping task_id r :
  backend task_id = Ok r →
  state r = "PROGRESS" ∨ state r = "SUCCESS" →
  is_dict (info r) = false →
  TaskStatusView_get backend py_repr task_id
    = ([], Ok (Response
                 (failure_body "Failed to get task status"
                    (Exn AttributeError
                       ("'" +:+ type_name (info r)
                          +:+ "' object has no attribute 'get'")))
                 HTTP_500_INTERNAL_SERVER_ERROR)).
Proof.
  unfold TaskStatusView_get. intros -> Hs Hinfo. simpl.
  destruct Hs as [-> | ->]; destruct (info r); try discriminate; reflexivity.
Qed.

Lemma status_other task_id r :
  backend task_id = Ok r →
  state r ∉ ["PENDING"; "PROGRESS"; "SUCCESS"] →
  TaskStatusView_get backend py_repr task_id
    = ([], Ok (Response
         (VDict (list_to_map
            [("task_id", VStr task_id); ("status", VStr "FAILURE");
             ("result",
              VDict {[ "error" :=
                VStr (if truthy (info r)
                      then py_str py_repr (info r)
                      else "Unknown error") ]})]))
         HTTP_200_OK)).
Proof.
  unfold TaskStatusView_get. intros -> Hother. simpl.
  rewrite list_elem_of_In in Hother. simpl in Hother.
  destruct (String.eqb_spec (state r) "PENDING") as [E|_];
    [by destruct Hother; left|].
  destruct (String.eqb_spec (state r) "PROGRESS") as [E|_];
    [by destruct Hother; right; left|].
  destruct (String.eqb_spec (state r) "SUCCESS") as [E|_];
    [by destruct Hother; right; right; left|].
  reflexivity.
Qed.

Lemma status_listed s :
  s = "PENDING" ∨ s = "PROGRESS" ∨ s = "SUCCESS" ∨ s = "FAILURE" → s ∈ statuses.
Proof.
  intros Hs. apply list_elem_of_In.
  destruct Hs as [-> | [-> | [-> | ->]]]; simpl; tauto.
Qed.

Lemma progress_body_has_fields current total message body status :
  body !! "progress" = Some (progress_body current total message) →
  has_progress (Response (VDict body) status).
Proof.
  intros Hp. unfold has_progress, progress_of, field. rewrite Hp.
  eexists. split; [reflexivity|].
  rewrite dom_list_to_map_L. simpl. set_solver.
Qed.

(** C4, as amended.  Every poll is answered, and the answer is the view's
    500 error in exactly two cases: the read of the task's record from the
    result backend raises (the details are that error), or the task is in
    state PROGRESS or SUCCESS and what the backend holds for it is not a
    mapping (the details are the [AttributeError] of [.get]).  In every
    other case the answer is a 200 that names the task and reports the
    status PENDING, PROGRESS, SUCCESS or FAILURE (FAILURE for every other
    state); with PENDING, PROGRESS and SUCCESS it carries a progress object
    with fields current, total and message, with FAILURE it carries none;
    the result field is there exactly with SUCCESS and FAILURE. *)
Theorem task_status_contract (task_id : string) :
  ∃ resp, TaskStatusView_get backend py_repr task_id = ([], Ok resp) ∧
    match backend task_id with
    | Raise e =>
        resp = Response (failure_body "Failed to get task status" e)
                 HTTP_500_INTERNAL_SERVER_ERROR
    | Ok r =>
        if bool_decide (state r ∈ ["PROGRESS"; "SUCCESS"]) && negb (is_dict (info r))
        then
          resp = Response
                   (failure_body "Failed to get task status"
                      (Exn AttributeError
                         ("'" +:+ type_name (info r)
                            +:+ "' object has no attribute 'get'")))
                   HTTP_500_INTERNAL_SERVER_ERROR
        else
          status_of resp = Some HTTP_200_OK ∧
          field resp "task_id" = Some (VStr task_id) ∧
          ∃ s, reported_status resp = Some s ∧ s ∈ statuses ∧
            s = (if bool_decide (state r ∈ ["PENDING"; "PROGRESS"; "SUCCESS"])
                 then state r else "FAILURE") ∧
            (s ≠ "FAILURE" → has_progress resp) ∧
            (s = "FAILURE" → field resp "progress" = None) ∧
            (is_Some (field resp "result") ↔ s = "SUCCESS" ∨ s = "FAILURE")
    end.
Proof.
  destruct (backend task_id) as [r|e] eqn:Hread;
    [|rewrite (status_unread _ _ Hread); by eexists].
  destruct (decide (state r ∈ ["PENDING"; "PROGRESS"; "SUCCESS"])) as [Hin|Hout].
  - rewrite (bool_decide_eq_true_2 _ Hin).
    assert (Hcases : state r = "PENDING" ∨ state r = "PROGRESS" ∨
                     state r = "SUCCESS").
    { apply list_elem_of_In in Hin.
      destruct Hin as [<- | [<- | [<- | []]]]; tauto. }
    destruct Hcases as [Hs | [Hs | Hs]].
    + rewrite (status_pending _ _ Hread Hs), Hs. eexists. split; [reflexivity|].
      simpl. split; [done|]. split; [done|]. exists "PENDING".
      split; [done|]. split; [apply status_listed; tauto|]. split; [done|].
      split; [intros _; by eapply progress_body_has_fields|].
      split; [done|]. split; [intros [? [=]] | intros [[=] | [=]]].
    + destruct (is_dict (info r)) eqn:Hdict.
      * destruct (info r) as [| | | | | |d|] eqn:Hinfo; try discriminate.
        rewrite (status_progress _ _ _ Hread Hs Hinfo), Hs.
        eexists. split; [reflexivity|]. simpl.
        split; [done|]. split; [done|]. exists "PROGRESS".
        split; [done|]. split; [apply status_listed; tauto|]. split; [done|].
        split; [intros _; by eapply progress_body_has_fields|].
        split; [done|]. split; [intros [? [=]] | intros [[=] | [=]]].
      * rewrite (status_not_a_mapping _ _ Hread (or_introl Hs) Hdict), Hs.
        eexists. split; reflexivity.
    + destruct (is_dict (info r)) eqn:Hdict.
      * destruct (info r) as [| | | | | |d|] eqn:Hinfo; try discriminate.
        rewrite (status_success _ _ _ Hread Hs Hinfo), Hs.
        eexists. split; [reflexivity|]. simpl.
        split; [done|]. split; [done|]. exists "SUCCESS".
        split; [done|]. split; [apply status_listed; tauto|]. split; [done|].
        split; [intros _; by eapply progress_body_has_fields|].
        split; [done|]. split; [eauto | by eexists].
      * rewrite (status_not_a_mapping _ _ Hread (or_intror Hs) Hdict), Hs.
        eexists. split; reflexivity.
  - rewrite (bool_decide_eq_false_2 _ Hout), (status_other _ _ Hread Hout).
    rewrite bool_decide_eq_false_2.
    2: { intros Hin. apply Hout. apply list_elem_of_In in Hin.
         apply list_elem_of_In. simpl in *. tauto. }
    eexists. split; [reflexivity|]. simpl.
    split; [done|]. split; [done|]. exists "FAILURE".
    split; [done|]. split; [apply status_listed; tauto|]. split; [done|].
    split; [done|]. split; [done|]. split; [eauto | by eexists].
Qed.


End StatusProperties.

(** C4, as stated, fails: the answer for a failed task has a status and a
    result, and no progress object. *)
Lemma failed_task_without_progress_counterexample :
  outcome (TaskStatusView_get sample_backend sample_repr "failed")
    = Ok (Response
            (VDict (list_to_map
               [("task_id", VStr "failed"); ("status", VStr "FAILURE");
                ("result", VDict {[ "error" := VStr "quota exceeded" ]})]))
            HTTP_200_OK) ∧
  ¬ status_contract_as_stated
      (Response
         (VDict (list_to_map
            [("task_id", VStr "failed"); ("status", VStr "FAILURE");
             ("result", VDict {[ "error" := VStr "quota exceeded" ]})]))
         HTTP_200_OK).
Proof.
  split; [vm_compute; reflexivity|].
  intros (s & _ & _ & (p & Hp & _) & _). vm_compute in Hp. discriminate.
Qed.


(** ** The OAuth callback *)

Section OAuthProperties.

Variable settings : Settings.
Variable py_int : string → result Z.
Variable User_objects_get : Z → result User.
Variable exchange_code_for_tokens : string → result value.
Variable expiry_after : value → result value.
Variable update_or_create : Z → dict → result unit.
Variable probe_gmail_address : Z → string.

Local Abbreviation callback :=
  (GoogleOAuthCallbackView_get settings py_int User_objects_get
     exchange_code_for_tokens expiry_after update_or_create probe_gmail_address).

Local Abbreviation frontend_url :=
  (default "http://localhost:3000" (FRONTEND_URL settings)).

Lemma missing_scopes_nonempty request :
  "https://www.googleapis.com/auth/gmail.modify" ∉ granted_scopes request →
  missing_scopes request = ["https://www.googleapis.com/auth/gmail.modify"].
Proof.
  intros Hmissing. unfold missing_scopes, required_scopes.
  rewrite filter_cons, decide_True by done. reflexivity.
Qed.

(** Without the required scope the callback ends in one of its error
    redirects and never reaches the upsert. *)
Lemma callback_without_scope request :
  "https://www.googleapis.com/auth/gmail.modify" ∉ granted_scopes request →
  ∃ message,
    callback request = ([], Ok (oauth_error frontend_url message)) ∨
    ∃ code,
      callback request = ([TokenExchange code], Ok (oauth_error frontend_url message)).
Proof.
  intros Hmissing. unfold GoogleOAuthCallbackView_get.
  destruct (opt_truthy (qd_get (GET request) "error")); [eauto|].
  destruct (opt_truthy (qd_get (GET request) "state")); simpl; [|eauto].
  destruct (opt_truthy (qd_get (GET request) "code")); simpl; [|eauto].
  destruct (py_int _) as [n|e]; simpl.
  2: { destruct (bool_decide _); simpl; eauto. }
  destruct (User_objects_get n) as [user|e]; simpl.
  2: { destruct (bool_decide _); simpl; eauto. }
  destruct (exchange_code_for_tokens _) as [token_response|e]; simpl; [|eauto].
  destruct (py_in "access_token" token_response) as [[]|e]; simpl; [|eauto..].
  rewrite (missing_scopes_nonempty _ Hmissing). simpl. eauto.
Qed.

(** C8, as amended.  When the granted scopes lack gmail.modify the callback
    never stores a credential and answers with an error redirect; that
    redirect is the [missing_scopes] one whenever the callback got as far as
    the scope check (no [error] parameter, [state] and [code] present, the
    state names a user, and the exchange gave a response with an access
    token). *)
Theorem oauth_missing_scope_stores_nothing (request : HttpRequest) :
  "https://www.googleapis.com/auth/gmail.modify" ∉ granted_scopes request →
  Forall (λ ev, is_upsert ev = false) (calls (callback request)) ∧
  (∃ message, outcome (callback request) = Ok (oauth_error frontend_url message)) ∧
  (reaches_scope_check py_int User_objects_get exchange_code_for_tokens request →
     outcome (callback request) = Ok (oauth_error frontend_url "missing_scopes")).
Proof.
  intros Hmissing. split; [|split].
  - destruct (callback_without_scope _ Hmissing) as (message & [-> | [code ->]]);
      simpl; repeat constructor.
  - destruct (callback_without_scope _ Hmissing) as (message & [-> | [code ->]]);
      by exists message.
  - intros (Herr & state & code & n & user & token_response
            & Hstate & Hstate_ne & Hcode & Hcode_ne & Hint & Huser & Hex & Htoken).
    unfold GoogleOAuthCallbackView_get.
    rewrite Herr, Hstate, Hcode. simpl.
    apply String.eqb_neq in Hstate_ne, Hcode_ne. rewrite Hstate_ne, Hcode_ne. simpl.
    rewrite Hint. simpl. rewrite Huser. simpl. rewrite Hex. simpl.
    rewrite Htoken. simpl.
    by rewrite (missing_scopes_nonempty _ Hmissing).
Qed.

End OAuthProperties.

Lemma oauth_missing_scope_stores_nothing_witness :
  ("https://www.googleapis.com/auth/gmail.modify"
     ∉ granted_scopes (callback_request
         [("state", "42"); ("code", "4/0Ab"); ("scope", "openid email")])) ∧
  outcome (sample_callback (callback_request
      [("state", "42"); ("code", "4/0Ab"); ("scope", "openid email")]))
    = Ok (oauth_error "http://localhost:3000" "missing_scopes").
Proof.
  assert (Hmissing : "https://www.googleapis.com/auth/gmail.modify"
    ∉ granted_scopes (callback_request
        [("state", "42"); ("code", "4/0Ab"); ("scope", "openid email")])).
  { vm_compute. intros Hin. apply list_elem_of_In in Hin.
    destruct Hin as [[=] | [[=] | []]]. }
  split; [exact Hmissing|].
  destruct (oauth_missing_scope_stores_nothing sample_settings sample_int
              sample_users sample_exchange sample_expiry sample_store sample_probe
              _ Hmissing) as (_ & _ & Hredirect).
  apply Hredirect. split; [reflexivity|].
  exists "42", "4/0Ab", 42, {| pk := 42; username := "ambuj" |},
    (VDict (list_to_map [("access_token", VStr "ya29"); ("expires_in", VInt 3599)])).
  repeat split; done.
Defined.

(** C8, as stated, fails: when the user refuses consent the provider calls
    back with [error] and no [scope]; the granted scopes lack gmail.modify
    and the redirect carries the provider's error, not [missing_scopes]. *)
Lemma oauth_denied_counterexample :
  ("https://www.googleapis.com/auth/gmail.modify"
     ∉ granted_scopes (callback_request [("error", "access_denied")])) ∧
  sample_callback (callback_request [("error", "access_denied")])
    = ([], Ok (Redirect
         "http://localhost:3000/dashboard?oauth=error&message=access_denied")) ∧
  Redirect "http://localhost:3000/dashboard?oauth=error&message=access_denied"
    ≠ oauth_error "http://localhost:3000" "missing_scopes".
Proof.
  split; [|split].
  - vm_compute. intros Hin. apply list_elem_of_In in Hin. destruct Hin.
  - reflexivity.
  - discriminate.
Qed.

(** * Further properties of the views *)

(** ** Bulk delete and bulk recover: every path *)

Section BulkPaths.

Variable delay : task_call → result string.


Lemma len_pos_truthy v n : py_len v = Ok n → 0 < n → truthy v = true.
Proof.
  destruct v as [| | | |s|l|d|]; simpl; try discriminate.
  - intros [= <-]. by destruct s.
  - intros [= <-]. by destruct l.
  - intros [= <-] Hpos. apply negb_true_iff, bool_decide_eq_false.
    apply map_size_non_empty_iff. lia.
Qed.


(** The one way through a bulk view that submits a task. *)
Lemma bulk_post_submits view request n batch :
  truthy (requested_ids request) = true →
  py_len (requested_ids request) = Ok n → n ≤ 10000 →
  py_min (requested_batch_size request) 500 = Ok batch →
  bulk_post delay view request =
    match delay (bulk_task view request batch) with
    | Ok task_id =>
        ([Delay (bulk_task view request batch)],
         Ok (Response (bulk_started view request task_id n) HTTP_200_OK))
    | Raise e =>
        ([Delay (bulk_task view request batch)],
         Ok (Response (failure_body (bulk_failure view) e)
               HTTP_500_INTERNAL_SERVER_ERROR))
    end.
Proof.
  unfold requested_ids, requested_batch_size. intros Ht Hlen Hn Hmin.
  apply Z.ltb_ge in Hn.
  destruct view; unfold bulk_post, bulk_task, bulk_started, requested_ids,
    requested_permanent, BulkEmailDeleteView_post, BulkEmailRecoverView_post;
    rewrite Ht, Hlen; simpl; rewrite Hn, Hmin; simpl;
    by destruct (delay _).
Qed.

(** X1. A bulk request whose [message_ids] has a length between 1 and 10000
    and whose [batch_size] is a number is accepted when the broker takes the
    task: one task is submitted, with [message_ids] as sent, and the answer
    is the 200 "started" body with that length as [total_emails].  The
    length is [len(message_ids)], so a string or an object of that length
    is accepted like a list. *)
Theorem bulk_accepts_1_to_10000
    (view : bulk_view) (request : HttpRequest) (n : Z) (b : bool) (task_id : string) :
  py_len (requested_ids request) = Ok n →
  0 < n ≤ 10000 →
  num_gt_int (requested_batch_size request) 500 = Some b →
  let batch := if b then VInt 500 else requested_batch_size request in
  delay (bulk_task view request batch) = Ok task_id →
  bulk_post delay view request =
    ([Delay (bulk_task view request batch)],
     Ok (Response (bulk_started view request task_id n) HTTP_200_OK)).
Proof.
  intros Hlen [Hpos Hn] Hb batch Hd.
  rewrite (bulk_post_submits view request n batch), Hd; try done.
  - by eapply len_pos_truthy.
  - unfold py_min. by rewrite Hb.
Qed.


(** X3. A bulk request that passes the two guards on [message_ids] but
    carries a [batch_size] that is not a number (a string, [null], a list)
    is answered with the view's 500 response, the details being the
    [TypeError] of [min]; no task is submitted. *)
Theorem bulk_bad_batch_size_fails
    (view : bulk_view) (request : HttpRequest) (n : Z) :
  py_len (requested_ids request) = Ok n →
  0 < n ≤ 10000 →
  num_gt_int (requested_batch_size request) 500 = None →
  failed (bulk_post delay view request) [] (bulk_failure view)
    (Exn TypeError
       ("'<' not supported between instances of 'int' and '"
          +:+ type_name (requested_batch_size request) +:+ "'")).
Proof.
  intros Hlen [Hpos Hn] Hb.
  pose proof (len_pos_truthy _ _ Hlen Hpos) as Ht.
  apply Z.ltb_ge in Hn. unfold requested_ids, requested_batch_size in *.
  destruct view; unfold failed, bulk_post, BulkEmailDeleteView_post,
    BulkEmailRecoverView_post, py_min; rewrite Ht, Hlen; simpl;
    by rewrite Hn, Hb.
Qed.

(** X4. A truthy [message_ids] that has no length (a number, [true]) is
    answered with the view's 500 response, the details being the
    [TypeError] of [len]; no task is submitted. *)
Theorem bulk_ids_without_len_fail
    (view : bulk_view) (request : HttpRequest) (e : exn) :
  truthy (requested_ids request) = true →
  py_len (requested_ids request) = Raise e →
  failed (bulk_post delay view request) [] (bulk_failure view) e ∧
  e = Exn TypeError
        ("object of type '" +:+ type_name (requested_ids request)
           +:+ "' has no len()").
Proof.
  intros Ht Hlen. split.
  - unfold requested_ids in *.
    destruct view; unfold failed, bulk_post, BulkEmailDeleteView_post,
      BulkEmailRecoverView_post; by rewrite Ht, Hlen.
  - destruct (requested_ids request); simpl in *; congruence.
Qed.

(** X5. When the broker refuses the task of a valid bulk request, the view
    answers its 500 response with the broker's error text as details; the
    submission was tried once and nothing else was called. *)
Theorem bulk_broker_failure
    (view : bulk_view) (request : HttpRequest) (n : Z) (b : bool) (e : exn) :
  py_len (requested_ids request) = Ok n →
  0 < n ≤ 10000 →
  num_gt_int (requested_batch_size request) 500 = Some b →
  let batch := if b then VInt 500 else requested_batch_size request in
  delay (bulk_task view request batch) = Raise e →
  failed (bulk_post delay view request) [Delay (bulk_task view request batch)]
    (bulk_failure view) e.
Proof.
  intros Hlen [Hpos Hn] Hb batch Hd. unfold failed.
  rewrite (bulk_post_submits view request n batch), Hd; try done.
  - by eapply len_pos_truthy.
  - unfold py_min. by rewrite Hb.
Qed.

End BulkPaths.

Lemma bulk_accepts_1_to_10000_witness :
  py_len (requested_ids (bulk_request (ids 10000))) = Ok 10000 ∧
  bulk_post broker_up BulkRecover (bulk_request (ids 10000)) =
    ([Delay (bulk_recover_emails_task 1 (ids 10000) (VInt 100))],
     Ok (Response (started_recover "7f3a" 10000) HTTP_200_OK)).
Proof.
  assert (Hlen : py_len (requested_ids (bulk_request (ids 10000))) = Ok 10000).
  { vm_compute. reflexivity. }
  split; [exact Hlen|].
  apply (bulk_accepts_1_to_10000 broker_up BulkRecover (bulk_request (ids 10000))
           10000 false "7f3a" Hlen).
  - lia.
  - reflexivity.
  - reflexivity.
Defined.


Lemma bulk_bad_batch_size_fails_witness :
  num_gt_int (requested_batch_size (batch_request (VStr "50"))) 500 = None ∧
  failed (bulk_post broker_up BulkDelete (batch_request (VStr "50"))) []
    "Failed to start bulk deletion"
    (Exn TypeError "'<' not supported between instances of 'int' and 'str'").
Proof.
  split; [reflexivity|].
  apply (bulk_bad_batch_size_fails broker_up BulkDelete
           (batch_request (VStr "50")) 2).
  - reflexivity.
  - lia.
  - reflexivity.
Defined.

Lemma bulk_ids_without_len_fail_witness :
  truthy (requested_ids (bulk_request (VInt 7))) = true ∧
  failed (bulk_post broker_up BulkRecover (bulk_request (VInt 7))) []
    "Failed to start bulk recovery"
    (Exn TypeError "object of type 'int' has no len()").
Proof.
  split; [reflexivity|].
  apply (bulk_ids_without_len_fail broker_up BulkRecover (bulk_request (VInt 7))
           (Exn TypeError "object of type 'int' has no len()")); reflexivity.
Defined.

Lemma bulk_broker_failure_witness :
  broker_down (bulk_delete_emails_task 1 (ids 2) (VBool false) (VInt 100))
    = Raise (Exn OtherError "Error 111 connecting to localhost:6379.") ∧
  failed (bulk_post broker_down BulkDelete (bulk_request (ids 2)))
    [Delay (bulk_delete_emails_task 1 (ids 2) (VBool false) (VInt 100))]
    "Failed to start bulk deletion"
    (Exn OtherError "Error 111 connecting to localhost:6379.").
Proof.
  split; [reflexivity|].
  apply (bulk_broker_failure broker_down BulkDelete (bulk_request (ids 2)) 2 false).
  - reflexivity.
  - lia.
  - reflexivity.
  - reflexivity.
Defined.

(** ** Delete and recover by query: every path *)

Section QueryPaths.

Variable delay : task_call → result string.
Variable py_repr : value → string.

(** The one way through a by-query view that submits a task. *)
Lemma query_post_submits view request :
  truthy (requested_query request) = true →
  num_gt_int (requested_max_emails request) 10000 = Some false →
  query_post delay py_repr view request =
    match delay (query_task view request) with
    | Ok task_id =>
        ([Delay (query_task view request)],
         Ok (Response (query_started py_repr view request task_id) HTTP_200_OK))
    | Raise e =>
        ([Delay (query_task view request)],
         Ok (Response (failure_body (query_failure view) e)
               HTTP_500_INTERNAL_SERVER_ERROR))
    end.
Proof.
  unfold requested_query, requested_max_emails. intros Hq Hmax.
  destruct view; unfold query_post, query_task, query_started, requested_query,
    requested_max_emails, requested_permanent, DeleteByQueryView_post,
    RecoverByQueryView_post, py_gt; rewrite Hq, Hmax; simpl;
    by destruct (delay _).
Qed.


(** X7. A by-query request with a query and a [max_emails] that is not a
    number (a string such as "500", [null], a list) is answered with the
    view's 500 response, the details being the [TypeError] of the
    comparison with 10000; no task is submitted. *)
Theorem query_bad_max_emails_fails (view : query_view) (request : HttpRequest) :
  truthy (requested_query request) = true →
  num_gt_int (requested_max_emails request) 10000 = None →
  failed (query_post delay py_repr view request) [] (query_failure view)
    (Exn TypeError
       ("'>' not supported between instances of '"
          +:+ type_name (requested_max_emails request) +:+ "' and 'int'")).
Proof.
  unfold requested_query, requested_max_emails. intros Hq Hmax.
  destruct view; unfold failed, query_post, DeleteByQueryView_post,
    RecoverByQueryView_post, py_gt; by rewrite Hq, Hmax.
Qed.

(** X8. An accepted by-query request is answered with the 200 body that
    echoes the query and [max_emails] as sent and names the task the broker
    created; the fields are status, task_id, search_query, max_emails and
    message, and for delete also permanent. *)
Theorem query_started_response
    (view : query_view) (request : HttpRequest) (resp : HttpResponse) :
  outcome (query_post delay py_repr view request) = Ok resp →
  status_of resp = Some HTTP_200_OK →
  fields resp =
    match view with
    | DeleteByQuery =>
        {[ "status"; "task_id"; "search_query"; "max_emails"; "permanent"; "message" ]}
    | RecoverByQuery =>
        {[ "status"; "task_id"; "search_query"; "max_emails"; "message" ]}
    end ∧
  field resp "status" = Some (VStr "started") ∧
  field resp "search_query" = Some (requested_query request) ∧
  field resp "max_emails" = Some (requested_max_emails request) ∧
  schedules (query_post delay py_repr view request) (query_task view request) ∧
  ∃ task_id, delay (query_task view request) = Ok task_id ∧
             field resp "task_id" = Some (VStr task_id).
Proof.
  intros Hout Hst.
  destruct (truthy (requested_query request)) eqn:Hq.
  2: { exfalso. revert Hout Hst. unfold requested_query in Hq.
       destruct view; simpl; unfold DeleteByQueryView_post,
         RecoverByQueryView_post; rewrite Hq; simpl; by intros [= <-]. }
  destruct (num_gt_int (requested_max_emails request) 10000) as [[]|] eqn:Hmax.
  1, 3: exfalso; revert Hout Hst;
    unfold requested_query, requested_max_emails in Hq, Hmax;
    destruct view; simpl; unfold DeleteByQueryView_post,
      RecoverByQueryView_post, py_gt; rewrite Hq, Hmax; simpl; by intros [= <-].
  unfold schedules. rewrite (query_post_submits view request Hq Hmax) in Hout |- *.
  destruct (delay (query_task view request)) as [tid|e]; simpl in *;
    injection Hout as <-; [|discriminate].
  split; [|split; [|split; [|split; [|split]]]].
  - destruct view; unfold fields, query_started; rewrite dom_list_to_map_L;
      simpl; set_solver.
  - by destruct view.
  - by destruct view.
  - by destruct view.
  - done.
  - exists tid. by destruct view.
Qed.

End QueryPaths.


Lemma query_bad_max_emails_fails_witness :
  num_gt_int (requested_max_emails (max_request (VStr "500"))) 10000 = None ∧
  failed (query_post broker_up sample_repr RecoverByQuery (max_request (VStr "500")))
    [] "Failed to start recovery by query"
    (Exn TypeError "'>' not supported between instances of 'str' and 'int'").
Proof.
  split; [reflexivity|].
  apply (query_bad_max_emails_fails broker_up sample_repr RecoverByQuery
           (max_request (VStr "500"))); reflexivity.
Defined.

Lemma query_started_response_witness :
  ∃ resp,
    outcome (query_post broker_up sample_repr RecoverByQuery
               (max_request (VInt 250))) = Ok resp ∧
    status_of resp = Some HTTP_200_OK ∧
    field resp "max_emails" = Some (VInt 250) ∧
    field resp "search_query" = Some (VStr "older_than:1y").
Proof.
  eexists. split; [reflexivity|]. split; [reflexivity|].
  destruct (query_started_response broker_up sample_repr RecoverByQuery
              (max_request (VInt 250)) _ eq_refl eq_refl)
    as (_ & _ & Hq & Hmax & _).
  split; [exact Hmax | exact Hq].
Defined.

(** ** Metadata and advanced search: what becomes of the client's answer *)

Section ClientAnswers.

Variable gmail : Z → gmail_op → result value.
Variable build_search_query : dict → result value.

(** X9. For a metadata request with 1 to 1000 ids, the answer follows the
    mapping the client returned: with an ['error'] key the mapping itself is
    sent back with status 400; without it, and with a list under
    ['emails'], the answer is 200 with the mapping as [data] and the number
    of emails as [count]; without either key the view answers its 500
    response (the [KeyError] of ['emails']).  If the client raises, that is
    the 500 response too, with the client's error text. *)
Theorem metadata_answer_follows_result (request : HttpRequest) (l : list value) :
  data request !! "message_ids" = Some (VList l) →
  0 < Z.of_nat (length l) ≤ 1000 →
  let view := GmailEmailMetadataView_post gmail request in
  let answer := gmail (user_id request) (get_email_metadata (VList l)) in
  calls view = [Gmail (user_id request) (get_email_metadata (VList l))] ∧
  (∀ d, answer = Ok (VDict d) → is_Some (d !! "error") →
     outcome view = Ok (Response (VDict d) HTTP_400_BAD_REQUEST)) ∧
  (∀ d emails, answer = Ok (VDict d) → d !! "error" = None →
     d !! "emails" = Some (VList emails) →
     outcome view = Ok (Response
       (VDict (list_to_map
          [("status", VStr "success"); ("data", VDict d);
           ("count", VInt (Z.of_nat (length emails)))]))
       HTTP_200_OK)) ∧
  (∀ d, answer = Ok (VDict d) → d !! "error" = None → d !! "emails" = None →
     outcome view = Ok (Response
       (failure_body "Failed to get email metadata" (Exn KeyError "'emails'"))
       HTTP_500_INTERNAL_SERVER_ERROR)) ∧
  (∀ e, answer = Raise e →
     outcome view = Ok (Response (failure_body "Failed to get email metadata" e)
                          HTTP_500_INTERNAL_SERVER_ERROR)).
Proof.
  intros Hl [Hpos Hn] view answer.
  subst view answer. unfold GmailEmailMetadataView_post. rewrite Hl.
  destruct l as [|x l']; [simpl in Hpos; lia|].
  apply Z.ltb_ge in Hn. simpl in *. rewrite Hn. simpl.
  split; [|split; [|split; [|split]]].
  - destruct (gmail _ _) as [result|e]; simpl; [|done].
    destruct (py_in _ _) as [[]|e]; simpl; [done| |done].
    destruct (py_getitem _ _) as [emails|e]; simpl; [|done].
    by destruct (py_len _).
  - intros d -> Herr. simpl. by rewrite (bool_decide_eq_true_2 _ Herr).
  - intros d emails -> Herr Hemails. simpl.
    rewrite bool_decide_eq_false_2 by (rewrite Herr; by intros [? [=]]).
    simpl. by rewrite Hemails.
  - intros d -> Herr Hemails. simpl.
    rewrite bool_decide_eq_false_2 by (rewrite Herr; by intros [? [=]]).
    simpl. by rewrite Hemails.
  - intros e ->. reflexivity.
Qed.

(** X10. An advanced search whose filters build to a non-empty query makes
    exactly one client call, [search_emails] with that query and the
    requested [max_results] (100 when the request has none).  A mapping with
    an ['error'] key comes back as such with status 400; any other mapping
    is wrapped in a 200 answer that also returns the filters as sent and the
    query built from them. *)
Theorem advanced_search_answer_follows_result
    (request : HttpRequest) (query : value) :
  build_search_query (data request) = Ok query →
  truthy query = true →
  let view := GmailSearchView_post gmail build_search_query request in
  let op := search_emails query (default (VInt 100) (data request !! "max_results")) in
  calls view = [Gmail (user_id request) op] ∧
  (∀ d, gmail (user_id request) op = Ok (VDict d) → is_Some (d !! "error") →
     outcome view = Ok (Response (VDict d) HTTP_400_BAD_REQUEST)) ∧
  (∀ d, gmail (user_id request) op = Ok (VDict d) → d !! "error" = None →
     outcome view = Ok (Response
       (VDict (list_to_map
          [("status", VStr "success"); ("data", VDict d);
           ("filters_used", VDict (data request));
           ("generated_query", query)]))
       HTTP_200_OK)) ∧
  (∀ e, gmail (user_id request) op = Raise e →
     outcome view = Ok (Response (failure_body "Advanced search failed" e)
                          HTTP_500_INTERNAL_SERVER_ERROR)).
Proof.
  intros Hq Ht view op. subst view op. unfold GmailSearchView_post.
  rewrite Hq. simpl. rewrite Ht. simpl.
  split; [|split; [|split]].
  - destruct (gmail _ _) as [result|e]; simpl; [|done].
    by destruct (py_in _ _) as [[]|e].
  - intros d -> Herr. simpl. by rewrite (bool_decide_eq_true_2 _ Herr).
  - intros d -> Herr. simpl.
    by rewrite bool_decide_eq_false_2 by (rewrite Herr; by intros [? [=]]).
  - by intros e ->.
Qed.

End ClientAnswers.

(** ** The OAuth callback: every path *)


Section OAuthPaths.

Variable settings : Settings.
Variable py_int : string → result Z.
Variable User_objects_get : Z → result User.
Variable exchange_code_for_tokens : string → result value.
Variable expiry_after : value → result value.
Variable update_or_create : Z → dict → result unit.
Variable probe_gmail_address : Z → string.

Local Abbreviation callback :=
  (GoogleOAuthCallbackView_get settings py_int User_objects_get
     exchange_code_for_tokens expiry_after update_or_create probe_gmail_address).

Local Abbreviation frontend_url :=
  (default "http://localhost:3000" (FRONTEND_URL settings)).

Local Abbreviation checked :=
  (passes_callback_checks py_int User_objects_get exchange_code_for_tokens).

Lemma missing_scopes_empty request :
  missing_scopes request = [] ↔
  "https://www.googleapis.com/auth/gmail.modify" ∈ granted_scopes request.
Proof.
  unfold missing_scopes, required_scopes. rewrite filter_cons. simpl.
  case_decide as Hin; split; done.
Qed.

Lemma opt_truthy_Some o : opt_truthy o = true → ∃ s, o = Some s ∧ s ≠ "".
Proof.
  destruct o as [s|]; simpl; [|discriminate]. intros Hs. exists s. split; [done|].
  apply String.eqb_neq. by apply negb_true_iff.
Qed.

(** The four shapes a run of the callback can take. *)
Lemma callback_paths request :
  (∃ message, callback request = ([], Ok (oauth_error frontend_url message))) ∨
  (∃ code uid message,
     names_user py_int User_objects_get request code uid ∧
     callback request = ([TokenExchange code], Ok (oauth_error frontend_url message))) ∨
  (∃ code uid access_token defaults,
     checked request code uid access_token ∧
     stored_by_callback request access_token defaults ∧
     ((∃ e, update_or_create uid defaults = Raise e ∧
        callback request =
          ([TokenExchange code; CredentialUpsert uid defaults],
           Ok (oauth_error frontend_url "server_error"))) ∨
      (update_or_create uid defaults = Ok () ∧
       callback request =
         ([TokenExchange code; CredentialUpsert uid defaults; GmailProbe uid],
          Ok (oauth_success frontend_url (probe_gmail_address uid)))))).
Proof.
  unfold GoogleOAuthCallbackView_get.
  destruct (opt_truthy (qd_get (GET request) "error")) eqn:Herr; [eauto|].
  destruct (opt_truthy (qd_get (GET request) "state")) eqn:Hstate; simpl; [|eauto].
  destruct (opt_truthy (qd_get (GET request) "code")) eqn:Hcode; simpl; [|eauto].
  apply opt_truthy_Some in Hstate as (state & Hstate & Hstate_ne).
  apply opt_truthy_Some in Hcode as (code & Hcode & Hcode_ne).
  rewrite Hstate, Hcode. simpl.
  destruct (py_int state) as [n|e] eqn:Hint; simpl.
  2: { destruct (bool_decide _); simpl; eauto. }
  destruct (User_objects_get n) as [user|e] eqn:Huser; simpl.
  2: { destruct (bool_decide _); simpl; eauto. }
  assert (Hnames : names_user py_int User_objects_get request code (pk user)).
  { split; [done|]. split; [done|]. split; [done|]. by exists state, n, user. }
  destruct (exchange_code_for_tokens code) as [token_response|e] eqn:Hex; simpl;
    [|right; left; eauto].
  destruct (py_in "access_token" token_response) as [[]|e]; simpl;
    [|right; left; eauto..].
  destruct (missing_scopes request) eqn:Hscopes; simpl; [|right; left; eauto].
  apply missing_scopes_empty in Hscopes.
  assert (Hchecked : ∀ access_token,
    py_getitem token_response "access_token" = Ok access_token →
    checked request code (pk user) access_token).
  { intros at' Hat. split; [done|]. split; [|done]. by exists token_response. }
  destruct (py_in "expires_in" token_response) as [[]|e]; simpl;
    [| |right; left; eauto].
  - destruct (py_getitem token_response "expires_in") as [seconds|e]; simpl;
      [|right; left; eauto].
    destruct (expiry_after seconds) as [expiry|e]; simpl; [|right; left; eauto].
    destruct (py_getitem token_response "access_token") as [at'|e] eqn:Hat; simpl;
      [|right; left; eauto].
    destruct (py_get token_response "refresh_token" VNone) as [rt|e]; simpl;
      [|right; left; eauto].
    destruct (setting _ (GOOGLE_OAUTH2_CLIENT_ID settings)) as [cid|e]; simpl;
      [|right; left; eauto].
    destruct (setting _ (GOOGLE_OAUTH2_CLIENT_SECRET settings)) as [cs|e]; simpl;
      [|right; left; eauto].
    match goal with |- context [CredentialUpsert _ ?d] => set (defaults := d) end.
    right; right. exists code, (pk user), at', defaults.
    split; [by apply Hchecked|]. split.
    { split; [reflexivity|]. split; [reflexivity|]. split; [reflexivity|].
      unfold defaults.
      rewrite ?dom_list_to_map_L, ?dom_insert_L, ?dom_empty_L. simpl. set_solver. }
    destruct (update_or_create (pk user) defaults) as [[]|e] eqn:Hup; simpl;
      [right|left]; eauto.
  - destruct (py_getitem token_response "access_token") as [at'|e] eqn:Hat; simpl;
      [|right; left; eauto].
    destruct (py_get token_response "refresh_token" VNone) as [rt|e]; simpl;
      [|right; left; eauto].
    destruct (setting _ (GOOGLE_OAUTH2_CLIENT_ID settings)) as [cid|e]; simpl;
      [|right; left; eauto].
    destruct (setting _ (GOOGLE_OAUTH2_CLIENT_SECRET settings)) as [cs|e]; simpl;
      [|right; left; eauto].
    match goal with |- context [CredentialUpsert _ ?d] => set (defaults := d) end.
    right; right. exists code, (pk user), at', defaults.
    split; [by apply Hchecked|]. split.
    { split; [reflexivity|]. split; [reflexivity|]. split; [reflexivity|].
      unfold defaults.
      rewrite ?dom_list_to_map_L, ?dom_insert_L, ?dom_empty_L. simpl. set_solver. }
    destruct (update_or_create (pk user) defaults) as [[]|e] eqn:Hup; simpl;
      [right|left]; eauto.
Qed.

(** X11. The callback writes a credential only after every check has
    passed: no [error] parameter, a [code] and a [state] that names an
    existing user, a token exchange that gave an access token, and
    gmail.modify among the granted scopes.  The write comes right after the
    one token exchange, goes to the row of the user named by [state], and
    holds the exchanged access token, the granted scopes and the fixed
    token endpoint. *)
Theorem callback_stores_only_checked
    (request : HttpRequest) (uid : Z) (defaults : dict) :
  CredentialUpsert uid defaults ∈ calls (callback request) →
  ∃ code access_token rest,
    calls (callback request)
      = TokenExchange code :: CredentialUpsert uid defaults :: rest ∧
    checked request code uid access_token ∧
    stored_by_callback request access_token defaults.
Proof.
  intros Hin.
  destruct (callback_paths request)
    as [[m Hrun] | [(code & u & m & _ & Hrun)
       | (code & u & at' & d & Hchecked & Hstored & Hrun)]].
  - rewrite Hrun in Hin. by apply not_elem_of_nil in Hin.
  - rewrite Hrun in Hin. simpl in Hin.
    apply list_elem_of_singleton in Hin. discriminate.
  - destruct Hrun as [(e & _ & Hrun) | [_ Hrun]]; rewrite Hrun in Hin |- *;
      simpl in *; apply list_elem_of_In in Hin; simpl in Hin.
    + destruct Hin as [[=] | [[= -> ->] | []]]. by exists code, at', [].
    + destruct Hin as [[=] | [[= -> ->] | [[=] | []]]].
      by exists code, at', [GmailProbe uid].
Qed.



End OAuthPaths.

Lemma callback_stores_only_checked_witness :
  CredentialUpsert 42 sample_stored ∈ calls (sample_callback granting_request) ∧
  sample_stored !! "scopes"
    = Some (VList (VStr <$> granted_scopes granting_request)) ∧
  "https://www.googleapis.com/auth/gmail.modify" ∈ granted_scopes granting_request.
Proof.
  assert (Hin : CredentialUpsert 42 sample_stored
                  ∈ calls (sample_callback granting_request)).
  { apply list_elem_of_In. right. left. reflexivity. }
  split; [exact Hin|].
  destruct (callback_stores_only_checked sample_settings sample_int sample_users
              sample_exchange sample_expiry sample_store sample_probe
              granting_request 42 sample_stored Hin)
    as (code & at' & rest & _ & (_ & _ & Hgranted) & _ & Hscopes & _).
  split; [exact Hscopes | exact Hgranted].
Defined.



(** ** The granted scopes *)

Lemma append_cons c (a b : string) : String c a +:+ b = String c (a +:+ b).
Proof. reflexivity. Qed.

Lemma has_space_app a b : has_space (a +:+ b) = has_space a || has_space b.
Proof.
  induction a as [|c a IH]; [done|].
  rewrite append_cons. simpl. by rewrite IH, orb_assoc.
Qed.

Lemma append_nil_r (s : string) : s +:+ "" = s.
Proof. induction s as [|c s IH]; [done|]. by rewrite append_cons, IH. Qed.

Lemma append_assoc (a b c : string) : (a +:+ b) +:+ c = a +:+ (b +:+ c).
Proof. induction a as [|x a IH]; [done|]. by rewrite !append_cons, IH. Qed.

Lemma append_not_empty (a : string) c : a +:+ String c "" ≠ "".
Proof. by destruct a. Qed.

Lemma eqb_empty_false (w : string) : w ≠ "" → String.eqb w "" = false.
Proof. by intros H%String.eqb_neq. Qed.

(** Every piece [split] cuts is a token, whatever word was being read. *)
Lemma split_from_tokens s word :
  has_space word = false → Forall is_token (split_from s word).
Proof.
  revert word. induction s as [|c s IH]; intros word Hword; simpl.
  - destruct (String.eqb_spec word ""); [constructor|].
    by repeat constructor.
  - destruct (is_space c) eqn:Hc.
    + destruct (String.eqb_spec word ""); [by apply IH|].
      constructor; [done|by apply IH].
    + apply IH. by rewrite has_space_app, Hword; simpl; rewrite Hc.
Qed.

(** Reading a token moves it whole into the word being read. *)
Lemma split_from_token w s word :
  has_space w = false → split_from (w +:+ s) word = split_from s (word +:+ w).
Proof.
  revert word. induction w as [|c w IH]; intros word Hw.
  - by rewrite append_nil_r.
  - simpl in Hw. apply orb_false_iff in Hw as [Hc Hw].
    rewrite append_cons. simpl. rewrite Hc.
    rewrite (IH _ Hw), append_assoc. reflexivity.
Qed.

Lemma split_from_blank s word :
  word ≠ "" → split_from (String " " s) word = word :: split_from s "".
Proof. intros Hne. simpl. by rewrite (eqb_empty_false _ Hne). Qed.

Lemma split_from_end word : word ≠ "" → split_from "" word = [word].
Proof. intros Hne. simpl. by rewrite (eqb_empty_false _ Hne). Qed.

Lemma py_split_concat ws :
  Forall is_token ws → py_split (String.concat " " ws) = ws.
Proof.
  unfold py_split. induction 1 as [|w ws [Hne Hw] Hws IH]; [done|].
  destruct ws as [|w' ws'].
  - change (String.concat " " [w]) with w.
    rewrite <- (append_nil_r w) at 1. rewrite (split_from_token w "" "" Hw).
    by apply split_from_end.
  - change (String.concat " " (w :: w' :: ws'))
      with (w +:+ String " " (String.concat " " (w' :: ws'))).
    rewrite (split_from_token w _ "" Hw).
    change ("" +:+ w) with w. rewrite (split_from_blank _ _ Hne). by rewrite IH.
Qed.

Lemma granted_scopes_split request :
  granted_scopes request = py_split (default "" (qd_get (GET request) "scope")).
Proof.
  unfold granted_scopes.
  destruct (String.eqb_spec (default "" (qd_get (GET request) "scope")) "") as [->|];
    done.
Qed.

(** X14. The granted scopes the callback works with are tokens: none is
    empty and none holds white space, however the [scope] parameter is
    spaced (leading, trailing or repeated blanks, tabs, line breaks); with
    no [scope] parameter the list is empty. *)
Theorem granted_scopes_are_tokens (request : HttpRequest) :
  Forall is_token (granted_scopes request) ∧
  (qd_get (GET request) "scope" = None → granted_scopes request = []).
Proof.
  split.
  - rewrite granted_scopes_split. by apply split_from_tokens.
  - by intros Hnone; unfold granted_scopes; rewrite Hnone.
Qed.

(** X15. When the [scope] parameter is a list of scopes joined by single
    spaces, as the provider sends it, the granted scopes are those scopes in
    that order; so gmail.modify passes the check exactly when it is one of
    them as a whole, not when it is part of a longer scope. *)
Theorem granted_scopes_of_joined (request : HttpRequest) (ws : list string) :
  qd_get (GET request) "scope" = Some (String.concat " " ws) →
  Forall is_token ws →
  granted_scopes request = ws ∧
  (missing_scopes request = [] ↔
   "https://www.googleapis.com/auth/gmail.modify" ∈ ws).
Proof.
  intros Hscope Hws.
  assert (Hgranted : granted_scopes request = ws).
  { rewrite granted_scopes_split, Hscope. simpl. by apply py_split_concat. }
  split; [done|].
  unfold missing_scopes, required_scopes. rewrite filter_cons, Hgranted. simpl.
  case_decide as Hin; split; done.
Qed.

Lemma granted_scopes_of_joined_witness :
  qd_get (GET (callback_request
                 [("scope", "https://www.googleapis.com/auth/gmail.modify.readonly")]))
    "scope"
    = Some (String.concat " "
              ["https://www.googleapis.com/auth/gmail.modify.readonly"]) ∧
  granted_scopes (callback_request
      [("scope", "https://www.googleapis.com/auth/gmail.modify.readonly")])
    = ["https://www.googleapis.com/auth/gmail.modify.readonly"].
Proof.
  split; [reflexivity|].
  apply (granted_scopes_of_joined
           (callback_request
              [("scope", "https://www.googleapis.com/auth/gmail.modify.readonly")])
           ["https://www.googleapis.com/auth/gmail.modify.readonly"] eq_refl).
  repeat constructor. discriminate.
Defined.

(** ** Search, list and count *)

Lemma lstrip_empty s : lstrip s = "" ↔ all_space s = true.
Proof.
  induction s as [|c s IH]; simpl; [done|].
  destruct (is_space c); simpl; [done|]. split; discriminate.
Qed.

Lemma lstrip_starts s : lstrip s = "" ∨ ∃ c t, lstrip s = String c t ∧ is_space c = false.
Proof.
  induction s as [|c s IH]; simpl; [by left|].
  destruct (is_space c) eqn:Hc; [done|]. right. by exists c, s.
Qed.

Lemma rstrip_not_empty c t : is_space c = false → rstrip (String c t) ≠ "".
Proof. intros Hc. simpl. rewrite Hc. by destruct (rstrip t). Qed.

(** [not s.strip()] holds exactly for the strings of white space. *)
Lemma strip_blank s : String.eqb (py_strip s) "" = all_space s.
Proof.
  unfold py_strip. destruct (all_space s) eqn:Hs.
  - apply lstrip_empty in Hs. by rewrite Hs.
  - apply String.eqb_neq.
    destruct (lstrip_starts s) as [He | (c & t & -> & Hc)].
    + apply lstrip_empty in He. congruence.
    + by apply rstrip_not_empty.
Qed.

Lemma for_each_Forall2 {A B} (f : A → result B) l ys :
  for_each f l = Ok ys ↔ Forall2 (λ x y, f x = Ok y) l ys.
Proof.
  revert ys. induction l as [|x l IH]; intros ys; simpl.
  - split; [intros [= <-]; constructor | by inversion 1].
  - destruct (f x) as [y|e] eqn:Hx.
    + destruct (for_each f l) as [ys'|e] eqn:Hl.
      * split.
        -- intros [= <-]. constructor; [done|]. by apply IH.
        -- inversion 1 as [|? y' ? ys'' Hy Hrest]; subst.
           apply IH in Hrest. congruence.
      * split; [discriminate|].
        inversion 1 as [|? y' ? ys'' Hy Hrest]; subst.
        apply IH in Hrest. discriminate.
    + split; [discriminate|]. inversion 1; congruence.
Qed.

Lemma for_each_fails {A B} (f : A → result B) l x :
  x ∈ l → (∃ e, f x = Raise e) → ∃ e, for_each f l = Raise e.
Proof.
  intros Hin [e He]. induction l as [|y l IH]; [by apply not_elem_of_nil in Hin|].
  simpl. apply elem_of_cons in Hin as [<- | Hin].
  - rewrite He. eauto.
  - destruct (f y); [|eauto]. destruct (IH Hin) as [e' ->]. eauto.
Qed.

Lemma processed_email_dict m :
  ∃ entry, processed_email (VDict m) = Ok entry ∧ processed_from (VDict m) entry.
Proof.
  eexists. split; [reflexivity|]. eexists m, _.
  split; [done|]. split; [reflexivity|].
  split; [|repeat split; reflexivity].
  unfold processed_fields. rewrite dom_list_to_map_L. simpl. set_solver.
Qed.

Lemma processed_email_not_dict v :
  is_dict v = false → ∃ e, processed_email v = Raise e.
Proof. destruct v; try discriminate; intros _; simpl; eauto. Qed.

Lemma for_each_processed messages :
  Forall (λ m, is_dict m = true) messages →
  ∃ entries,
    for_each processed_email messages = Ok entries ∧
    Forall2 processed_from messages entries.
Proof.
  induction 1 as [|m ms Hm Hms IH]; [by exists []|].
  destruct m as [| | | | | |m|]; try discriminate.
  destruct (processed_email_dict m) as (entry & Hentry & Hfrom).
  destruct IH as (entries & Hentries & Hall2).
  exists (entry :: entries). split; [|by constructor].
  change (for_each processed_email (VDict m :: ms))
    with (match processed_email (VDict m) with
          | Ok y => match for_each processed_email ms with
                    | Ok ys => Ok (y :: ys)
                    | Raise e => Raise e
                    end
          | Raise e => Raise e
          end).
  by rewrite Hentry, Hentries.
Qed.

Section SearchProperties.

Variable service : service_call → result value.
Variable py_int : string → result Z.

(** X16. The search view refuses a query of white space only (or none) with
    its 400 response, before the mailbox is called; but [page_size] is read
    first, so with a [page_size] that is not a number the answer is the 500
    "Search failed" response instead.  The count view, which reads no page
    size, always answers 400 to such a query. *)
Theorem blank_query_refused (request : HttpRequest) :
  all_space (default "" (qd_get (GET request) "q")) = true →
  GmailSearchView_get service py_int request =
    ([], Ok (match int_param py_int request "page_size" 20 with
             | Ok _ =>
                 Response (search_error "Search query (q) parameter is required")
                   HTTP_400_BAD_REQUEST
             | Raise e =>
                 Response (search_error ("Search failed: " +:+ exn_str e))
                   HTTP_500_INTERNAL_SERVER_ERROR
             end)) ∧
  GmailEmailCountView_get service request =
    ([], Ok (Response (error_body "Query (q) parameter is required")
               HTTP_400_BAD_REQUEST)).
Proof.
  intros Hblank. unfold GmailSearchView_get, GmailEmailCountView_get.
  rewrite strip_blank, Hblank. split; [|done].
  by destruct (int_param _ _ _ _).
Qed.

(** X17. For a search that the mailbox answers with a mapping without
    ['error'] whose ['messages'] is a list: when every message is a mapping,
    the answer is 200 and [results] holds one entry per message, in order.
    An entry has exactly the ten fields of the front end, each the message's
    value or, where it has none, the default: [None] for [id] and
    [threadId], the empty list for [labelIds], the empty string for
    [snippet], "Unknown" for [from], [to] and [date], "No Subject" for
    [subject]; [size] is the message's [sizeEstimate] or 0, and [labels]
    repeats [labelIds].  When one message is not a mapping, the whole page
    fails with the 500 response. *)
Theorem search_results_follow_messages
    (request : HttpRequest) (q : string) (n : Z) (d : dict) (messages : list value) :
  qd_get (GET request) "q" = Some q → all_space q = false →
  int_param py_int request "page_size" 20 = Ok n →
  service (search_emails_page (user_id request) (VStr q) (VInt n)
             (get_param request "page_token")) = Ok (VDict d) →
  d !! "error" = None → d !! "messages" = Some (VList messages) →
  (Forall (λ m, is_dict m = true) messages →
     ∃ entries,
       returned (GmailSearchView_get service py_int request) =
         Ok (Response
               (VDict (list_to_map
                  [("results", VList entries);
                   ("count", default (VInt 0) (d !! "resultSizeEstimate"));
                   ("next", default VNone (d !! "nextPageToken"));
                   ("previous", VNone);
                   ("query", VStr q)]))
               HTTP_200_OK) ∧
       Forall2 processed_from messages entries) ∧
  (¬ Forall (λ m, is_dict m = true) messages →
     ∃ msg,
       returned (GmailSearchView_get service py_int request) =
         Ok (Response (search_error ("Search failed: " +:+ msg))
               HTTP_500_INTERNAL_SERVER_ERROR)).
Proof.
  intros Hq Hblank Hint Hservice Herr Hmessages.
  unfold GmailSearchView_get. rewrite Hq, Hint. simpl.
  rewrite strip_blank, Hblank. simpl. rewrite Hservice. simpl.
  rewrite bool_decide_eq_false_2 by (rewrite Herr; by intros [? [=]]).
  simpl. rewrite Hmessages. simpl. split.
  - intros Hall.
    destruct (for_each_processed messages Hall) as (entries & Hfe & Hall2).
    rewrite Hfe. simpl.
    by exists entries.
  - intros Hnot. apply not_Forall_Exists in Hnot; [|intros; apply _].
    apply Exists_exists in Hnot as (x & Hin & Hx).
    apply not_true_is_false in Hx.
    destruct (for_each_fails processed_email messages x)
      as [e ->]; [done|by apply processed_email_not_dict|].
    simpl. by exists (exn_str e).
Qed.

End SearchProperties.

Section ListAndCount.

Variable service : service_call → result value.
Variable py_int : string → result Z.
Variable delay : task_call → result string.
Variable py_repr : value → string.


Lemma label_is_token l : is_token l → is_token ("label:" +:+ l).
Proof.
  intros [Hne Hsp]. split; [discriminate|].
  by rewrite has_space_app, Hsp.
Qed.

(** X19. The list view asks the mailbox once, for the query made of one
    [label:] term per [label_ids] value of the request, joined by single
    spaces (the empty query when there is none); when the labels hold no
    white space the terms of the query are exactly those labels.  The
    messages of the answer are sent back as they came. *)
Theorem list_view_query (request : HttpRequest) (n : Z) :
  int_param py_int request "page_size" 20 = Ok n →
  let labels := qd_getlist (GET request) "label_ids" in
  let call := search_emails_page (user_id request) (VStr (label_query labels))
                (VInt n) (get_param request "page_token") in
  asked (GmailEmailListView_get service py_int request) = [call] ∧
  (labels = [] → label_query labels = "") ∧
  (Forall is_token labels →
     py_split (label_query labels) = (λ l, "label:" +:+ l) <$> labels) ∧
  (∀ d, service call = Ok (VDict d) → d !! "error" = None →
     returned (GmailEmailListView_get service py_int request) =
       Ok (Response
             (VDict (list_to_map
                [("results", default (VList []) (d !! "messages"));
                 ("count", default (VInt 0) (d !! "resultSizeEstimate"));
                 ("next", default VNone (d !! "nextPageToken"));
                 ("previous", VNone)]))
             HTTP_200_OK)).
Proof.
  intros Hint labels call. subst labels call.
  unfold GmailEmailListView_get. rewrite Hint. simpl.
  split; [|split; [|split]].
  - destruct (service _) as [result|e]; simpl; [|done].
    destruct (py_in _ _) as [[]|e]; simpl; [|..|done].
    + by destruct (py_getitem _ _).
    + destruct (py_get result "messages" _); simpl; [|done].
      destruct (py_get result "resultSizeEstimate" _); simpl; [|done].
      by destruct (py_get result "nextPageToken" _).
  - by intros ->.
  - intros Htokens. unfold label_query. apply py_split_concat.
    apply Forall_fmap. eapply Forall_impl; [done|]. intros l. apply label_is_token.
  - intros d -> Herr. simpl.
    by rewrite bool_decide_eq_false_2 by (rewrite Herr; by intros [? [=]]).
Qed.

(** X20. For a query that is not blank the count view asks the mailbox once
    for its quick estimate.  A mapping with an ['error'] key goes back as it
    is with status 400; otherwise the answer is 200 with the mapping's
    [count], with [is_estimate] true unless the mapping says otherwise, and
    with the query as sent; a mapping without [count] gives the 500
    response. *)
Theorem count_view_answer (request : HttpRequest) (q : string) (d : dict) :
  qd_get (GET request) "q" = Some q → all_space q = false →
  service (get_quick_email_estimate (user_id request) (VStr q)) = Ok (VDict d) →
  GmailEmailCountView_get service request =
    ([get_quick_email_estimate (user_id request) (VStr q)],
     Ok (match d !! "error", d !! "count" with
         | Some _, _ => Response (VDict d) HTTP_400_BAD_REQUEST
         | None, Some count =>
             Response
               (VDict (list_to_map
                  [("count", count);
                   ("is_estimate", default (VBool true) (d !! "is_estimate"));
                   ("query", VStr q)]))
               HTTP_200_OK
         | None, None =>
             Response (failure_body "Failed to count emails" (Exn KeyError "'count'"))
               HTTP_500_INTERNAL_SERVER_ERROR
         end)).
Proof.
  intros Hq Hblank Hservice. unfold GmailEmailCountView_get.
  rewrite Hq. simpl. rewrite strip_blank, Hblank. simpl. rewrite Hservice. simpl.
  destruct (d !! "error") as [err|] eqn:Herr.
  - by rewrite bool_decide_eq_true_2 by done.
  - rewrite bool_decide_eq_false_2 by (by intros [? [=]]). simpl.
    by destruct (d !! "count").
Qed.

(** X21. The by-query views do not strip their query: a query of white space
    only, which the count view refuses with 400, passes the guard of delete
    by query and recover by query, and a task is submitted with that blank
    query. *)
Theorem blank_query_reaches_worker
    (view : query_view) (request : HttpRequest) (q : string) :
  qd_get (GET request) "q" = Some q → data request !! "q" = Some (VStr q) →
  q ≠ "" → all_space q = true →
  num_gt_int (requested_max_emails request) 10000 = Some false →
  GmailEmailCountView_get service request =
    ([], Ok (Response (error_body "Query (q) parameter is required")
               HTTP_400_BAD_REQUEST)) ∧
  calls (query_post delay py_repr view request) = [Delay (query_task view request)] ∧
  requested_query request = VStr q.
Proof.
  intros Hget Hdata Hne Hblank Hmax.
  assert (Hq : requested_query request = VStr q).
  { unfold requested_query. by rewrite Hdata. }
  split; [|split; [|done]].
  - unfold GmailEmailCountView_get. rewrite Hget. simpl.
    by rewrite strip_blank, Hblank.
  - rewrite query_post_submits; [by destruct (delay _)| |done].
    rewrite Hq. simpl. by rewrite (eqb_empty_false _ Hne).
Qed.

End ListAndCount.

(** ** Token status, authorisation URL and revocation *)

Section TokenViews.

Variable service : service_call → result value.
Variable token_row : Z → result TokenRow.

(** The probe of the status view never raises: it ends connected, with
    the [gmail_info] of the profile it read, or not connected with none. *)
Lemma probe_connection_result uid :
  ∃ t, probe_connection service uid =
         (t, Ok (match readable_profile service uid with
                 | Some profile => (true, gmail_info_of profile)
                 | None => (false, VNone)
                 end)).
Proof.
  unfold probe_connection, readable_profile.
  destruct (service (create_gmail_service uid)) as [gmail_service|e]; simpl;
    [|eauto].
  destruct gmail_service; simpl; [by eauto|..].
  all: destruct (service (getProfile uid)) as [profile|err]; simpl; [|by eauto].
  all: destruct profile; simpl; by eauto.
Qed.

(** X22. Without a row in the token table the status view answers 200 with
    [has_token] false, [is_connected] false, no scopes and no [gmail_info],
    and the mailbox is not probed: the lookup is the only call.  A lookup
    that fails in any other way is not handled: the exception leaves the
    view. *)
Theorem token_status_without_token (request : HttpRequest) (e : exn) :
  token_row (user_id request) = Raise e →
  GoogleTokenStatusView_get service token_row request =
    ([GoogleOAuthToken_objects_get (user_id request)],
     if bool_decide (exn_cls e = DoesNotExist) then
       Ok (Response
             (VDict (list_to_map
                [("has_token", VBool false);
                 ("is_expired", VNone);
                 ("is_connected", VBool false);
                 ("scopes", VList []);
                 ("message",
                  VStr "No Gmail authorization found. Please authorize first.");
                 ("gmail_info", VNone)]))
             HTTP_200_OK)
     else Raise e).
Proof.
  intros Hrow. unfold GoogleTokenStatusView_get. rewrite Hrow. simpl.
  by destruct (bool_decide _).
Qed.

(** X23. When the token row is found and its expiry can be read, the status
    view always answers, with a 200 that has [has_token] true, the row's
    expiry flag and scopes, and an [is_connected] and a [gmail_info] that
    agree.  When there is a mailbox service and [getProfile] answers with a
    mapping, the view reports connected and [gmail_info] holds the
    profile's [emailAddress] ([None] when absent) as [email_address] and its
    [messagesTotal] and [threadsTotal] (0 when absent) as [messages_total]
    and [threads_total].  In every other case (no service, a failing or
    malformed profile) it reports not connected and [gmail_info] is [None]:
    a mailbox that cannot be reached never fails the view. *)
Theorem token_status_connected_iff_info
    (request : HttpRequest) (token : TokenRow) (expired : value) :
  token_row (user_id request) = Ok token → is_expired token = Ok expired →
  ∃ resp,
    returned (GoogleTokenStatusView_get service token_row request) = Ok resp ∧
    status_of resp = Some HTTP_200_OK ∧
    field resp "has_token" = Some (VBool true) ∧
    field resp "is_expired" = Some expired ∧
    field resp "scopes" = Some (scopes token) ∧
    match readable_profile service (user_id request) with
    | Some profile =>
        field resp "is_connected" = Some (VBool true) ∧
        field resp "gmail_info" = Some (gmail_info_of profile)
    | None =>
        field resp "is_connected" = Some (VBool false) ∧
        field resp "gmail_info" = Some VNone
    end.
Proof.
  intros Hrow Hexpired. unfold GoogleTokenStatusView_get. rewrite Hrow. simpl.
  destruct (probe_connection_result (user_id request)) as [t ->].
  destruct (readable_profile service (user_id request)) as [profile|]; simpl;
    rewrite Hexpired; simpl; eexists; (split; [reflexivity|]); by repeat split.
Qed.


End TokenViews.

(** ** Connectivity, the manager views and logout *)

Section ManagerViews.

Variable service : service_call → result value.
Variable blacklist_token : value → blacklisting.

(** X25. The refresh view reports [connected] from the refreshed service
    alone: with a service it answers 200, [connected] true and the profile
    of the connectivity test, whatever that test says about the connection;
    the same test result, naming no connection, makes the test view answer
    400 with [connected] false.  Without a service the refresh view answers
    400 with the manager's last error and runs no connectivity test. *)
Theorem refresh_ignores_connected_flag
    (request : HttpRequest) (d : dict) (connected error profile : value) :
  service (test_gmail_connectivity (user_id request)) = Ok (VDict d) →
  d !! "connected" = Some connected → truthy connected = false →
  d !! "error" = Some error → d !! "profile" = Some profile →
  returned (GmailConnectivityTestView_get service request) =
    Ok (Response (connectivity_failure error "Gmail API connection failed")
          HTTP_400_BAD_REQUEST) ∧
  (∀ gmail_service,
     service (get_service_force_refresh (user_id request)) = Ok gmail_service →
     GmailConnectivityTestView_post service request =
       if truthy gmail_service then
         ([get_service_force_refresh (user_id request);
           test_gmail_connectivity (user_id request)],
          Ok (Response
                (connectivity_success profile
                   "Gmail connection refreshed successfully")
                HTTP_200_OK))
       else
         match service (get_last_error (user_id request)) with
         | Ok last =>
             ([get_service_force_refresh (user_id request);
               get_last_error (user_id request)],
              Ok (Response
                    (connectivity_failure last "Failed to refresh Gmail connection")
                    HTTP_400_BAD_REQUEST))
         | Raise e =>
             ([get_service_force_refresh (user_id request);
               get_last_error (user_id request)],
              Ok (Response
                    (connectivity_failure (VStr (exn_str e))
                       "Connection refresh failed")
                    HTTP_500_INTERNAL_SERVER_ERROR))
         end).
Proof.
  intros Htest Hconn Hfalsy Herror Hprofile. split.
  - unfold GmailConnectivityTestView_get. rewrite Htest. simpl.
    rewrite Hconn. simpl. rewrite Hfalsy. simpl. by rewrite Herror.
  - intros gmail_service Hrefresh. unfold GmailConnectivityTestView_post.
    rewrite Hrefresh. simpl. destruct (truthy gmail_service); simpl.
    + rewrite Htest. simpl. by rewrite Hprofile.
    + by destruct (service (get_last_error _)).
Qed.

(** X26. The labels, single delete, single recover, rule creation, rule
    execution and undo views each make exactly one call to their manager
    and hand its mapping on: with an ['error'] key the mapping is the body
    of a 400 answer; otherwise it is the [data] of a 200 answer whose status
    is "success"; an exception of the manager becomes the view's 500
    response with the exception's text. *)
Theorem manager_answer_is_handed_on (view : manager_view) (request : HttpRequest) :
  let run := manager_run service view request in
  let call := manager_call view request in
  asked run = [call] ∧
  (∀ d, service call = Ok (VDict d) → is_Some (d !! "error") →
     returned run = Ok (Response (VDict d) HTTP_400_BAD_REQUEST)) ∧
  (∀ d, service call = Ok (VDict d) → d !! "error" = None →
     ∃ body, returned run = Ok (Response (VDict body) HTTP_200_OK) ∧
             body !! "status" = Some (VStr "success") ∧
             body !! "data" = Some (VDict d)) ∧
  (∀ e, service call = Raise e →
     returned run = Ok (Response (failure_body (manager_failure view) e)
                          HTTP_500_INTERNAL_SERVER_ERROR)).
Proof.
  intros run call. subst run call.
  destruct view; simpl; unfold GmailLabelsView_get, EmailDeleteView_delete,
    EmailRecoverView_post, DeletionRulesView_post, ExecuteRuleView_post, UndoOperationView_post,
    answer_from, requested_permanent.
  all: split; [|split; [|split]].
  all: try (destruct (service _) as [answer|e]; simpl; [|done];
            by destruct (py_in _ _) as [[]|e]).
  all: try (intros d -> Herr; simpl; by rewrite (bool_decide_eq_true_2 _ Herr)).
  all: try (by intros e ->).
  all: intros d -> Herr; simpl;
    rewrite bool_decide_eq_false_2 by (rewrite Herr; by intros [? [=]]);
    simpl; by eexists.
Qed.

(** X27. Logout with no refresh token in the request (absent, [null] or
    empty) answers 200 "Logout successful" and blacklists nothing.  With a
    token the blacklist is called once: success is the same 200, a
    [TokenError] is the 400 "Invalid token", and any other exception is not
    handled and leaves the view. *)
Theorem logout_cases (request : HttpRequest) :
  let refresh_token := default VNone (data request !! "refresh") in
  let done :=
    Response (VDict {[ "message" := VStr "Logout successful" ]}) HTTP_200_OK in
  (truthy refresh_token = false →
     UserLogoutView_post blacklist_token request = ([], Ok done)) ∧
  (truthy refresh_token = true →
     asked (UserLogoutView_post blacklist_token request) = [blacklist refresh_token] ∧
     (blacklist_token refresh_token = Blacklisted →
        returned (UserLogoutView_post blacklist_token request) = Ok done) ∧
     (∀ msg, blacklist_token refresh_token = TokenError msg →
        returned (UserLogoutView_post blacklist_token request) =
          Ok (Response (VDict {[ "error" := VStr "Invalid token" ]})
                HTTP_400_BAD_REQUEST)) ∧
     (∀ e, blacklist_token refresh_token = Crashed e →
        returned (UserLogoutView_post blacklist_token request) = Raise e)).
Proof.
  intros refresh_token done. subst refresh_token done.
  unfold UserLogoutView_post. split; intros ->; [done|].
  split; [done|]. split; [|split].
  - by intros ->.
  - by intros msg ->.
  - by intros e ->.
Qed.

End ManagerViews.

(** ** Instances *)

Lemma metadata_answer_follows_result_witness :
  0 < Z.of_nat (length (replicate 2 (VStr "m"))) ≤ 1000 ∧
  outcome (GmailEmailMetadataView_post (gmail_answers (Ok two_emails))
             (bulk_request (ids 2))) =
    Ok (Response
          (VDict (list_to_map
             [("status", VStr "success"); ("data", two_emails); ("count", VInt 2)]))
          HTTP_200_OK).
Proof.
  assert (Hn : 0 < Z.of_nat (length (replicate 2 (VStr "m"))) ≤ 1000)
    by (simpl; lia).
  split; [exact Hn|].
  destruct (metadata_answer_follows_result (gmail_answers (Ok two_emails))
              (bulk_request (ids 2)) (replicate 2 (VStr "m")) eq_refl Hn)
    as (_ & _ & Hok & _).
  apply (Hok {[ "emails" := VList [VStr "a"; VStr "b"] ]} [VStr "a"; VStr "b"]);
    reflexivity.
Defined.

Lemma advanced_search_answer_follows_result_witness :
  filters_to (VStr "from:a") (data empty_request) = Ok (VStr "from:a") ∧
  calls (GmailSearchView_post sample_gmail (filters_to (VStr "from:a")) empty_request)
    = [Gmail 1 (search_emails (VStr "from:a") (VInt 100))].
Proof.
  split; [reflexivity|].
  destruct (advanced_search_answer_follows_result sample_gmail
              (filters_to (VStr "from:a")) empty_request (VStr "from:a")
              eq_refl eq_refl) as [Hcalls _].
  exact Hcalls.
Defined.

Lemma blank_query_refused_witness :
  all_space (default "" (qd_get (GET (search_request [("q", " ")])) "q")) = true ∧
  GmailEmailCountView_get (service_answers (Ok (estimate_of 7)))
      (search_request [("q", " ")]) =
    ([], Ok (Response (error_body "Query (q) parameter is required")
               HTTP_400_BAD_REQUEST)).
Proof.
  split; [reflexivity|].
  destruct (blank_query_refused (service_answers (Ok (estimate_of 7))) sample_int
              (search_request [("q", " ")]) eq_refl) as [_ Hcount].
  exact Hcount.
Defined.

Lemma search_results_follow_messages_witness :
  qd_get (GET (search_request [("q", "from:a")])) "q" = Some "from:a" ∧
  ∃ entries,
    Forall2 processed_from
      [VDict (list_to_map [("id", VStr "m1"); ("labelIds", VList [VStr "INBOX"])]);
       VDict {[ "id" := VStr "m2" ]}]
      entries.
Proof.
  split; [reflexivity|].
  destruct (search_results_follow_messages (service_answers (Ok two_messages))
              sample_int (search_request [("q", "from:a")]) "from:a" 20
              (list_to_map
                 [("messages",
                   VList [VDict (list_to_map
                            [("id", VStr "m1"); ("labelIds", VList [VStr "INBOX"])]);
                          VDict {[ "id" := VStr "m2" ]}]);
                  ("resultSizeEstimate", VInt 2)])
              [VDict (list_to_map [("id", VStr "m1"); ("labelIds", VList [VStr "INBOX"])]);
               VDict {[ "id" := VStr "m2" ]}]
              eq_refl eq_refl eq_refl eq_refl eq_refl eq_refl) as [Hall _].
  destruct Hall as (entries & _ & Hfrom); [by repeat constructor|].
  by exists entries.
Defined.

Lemma list_view_query_witness :
  int_param sample_int
    (search_request [("label_ids", "INBOX"); ("label_ids", "UNREAD")])
    "page_size" 20 = Ok 20 ∧
  asked (GmailEmailListView_get (service_answers (Ok two_messages)) sample_int
           (search_request [("label_ids", "INBOX"); ("label_ids", "UNREAD")]))
    = [search_emails_page 1 (VStr "label:INBOX label:UNREAD") (VInt 20) VNone].
Proof.
  split; [reflexivity|].
  destruct (list_view_query (service_answers (Ok two_messages)) sample_int
              (search_request [("label_ids", "INBOX"); ("label_ids", "UNREAD")])
              20 eq_refl) as [Hasked _].
  exact Hasked.
Defined.

Lemma count_view_answer_witness :
  all_space "is:unread" = false ∧
  GmailEmailCountView_get (service_answers (Ok (estimate_of 7)))
      (search_request [("q", "is:unread")]) =
    ([get_quick_email_estimate 1 (VStr "is:unread")],
     Ok (Response
           (VDict (list_to_map
              [("count", VInt 7); ("is_estimate", VBool true);
               ("query", VStr "is:unread")]))
           HTTP_200_OK)).
Proof.
  split; [reflexivity|].
  rewrite (count_view_answer (service_answers (Ok (estimate_of 7)))
             (search_request [("q", "is:unread")]) "is:unread"
             {[ "count" := VInt 7 ]} eq_refl eq_refl eq_refl).
  reflexivity.
Defined.

Lemma blank_query_reaches_worker_witness :
  all_space "   " = true ∧
  calls (query_post broker_up sample_repr DeleteByQuery blank_request)
    = [Delay (delete_by_query_task 1 (VStr "   ") (VInt 1000) (VBool false))].
Proof.
  split; [reflexivity|].
  destruct (blank_query_reaches_worker (service_answers (Ok (estimate_of 7)))
              broker_up sample_repr DeleteByQuery blank_request "   "
              eq_refl eq_refl) as (_ & Hcalls & _);
    [discriminate | reflexivity | reflexivity |].
  exact Hcalls.
Defined.

Lemma token_status_without_token_witness :
  no_token 1 = Raise (Exn DoesNotExist "GoogleOAuthToken matching query does not exist.") ∧
  asked (GoogleTokenStatusView_get (service_answers (Ok VNone)) no_token empty_request)
    = [GoogleOAuthToken_objects_get 1].
Proof.
  split; [reflexivity|].
  rewrite (token_status_without_token (service_answers (Ok VNone)) no_token
             empty_request _ eq_refl).
  reflexivity.
Defined.

Lemma token_status_connected_iff_info_witness :
  ∃ resp,
    returned (GoogleTokenStatusView_get (service_answers (Ok sample_profile))
                (λ _, Ok sample_row) empty_request) = Ok resp ∧
    field resp "is_connected" = Some (VBool true) ∧
    field resp "gmail_info" =
      Some (VDict (list_to_map
        [("email_address", VStr "user@example.com");
         ("messages_total", VInt 12); ("threads_total", VInt 9)])).
Proof.
  destruct (token_status_connected_iff_info (service_answers (Ok sample_profile))
              (λ _, Ok sample_row) empty_request sample_row (VBool false)
              eq_refl eq_refl) as (resp & Hresp & _ & _ & _ & _ & Hprobe).
  exists resp. split; [exact Hresp | exact Hprobe].
Defined.

Lemma refresh_ignores_connected_flag_witness :
  truthy (VBool false) = false ∧
  returned (GmailConnectivityTestView_get (service_answers (Ok not_connected))
              empty_request) =
    Ok (Response
          (connectivity_failure (VStr "No valid credentials")
             "Gmail API connection failed")
          HTTP_400_BAD_REQUEST) ∧
  returned (GmailConnectivityTestView_post (service_answers (Ok not_connected))
              empty_request) =
    Ok (Response
          (connectivity_success VNone "Gmail connection refreshed successfully")
          HTTP_200_OK).
Proof.
  split; [reflexivity|].
  destruct (refresh_ignores_connected_flag (service_answers (Ok not_connected))
              empty_request
              (list_to_map
                 [("connected", VBool false); ("error", VStr "No valid credentials");
                  ("profile", VNone)])
              (VBool false) (VStr "No valid credentials") VNone
              eq_refl eq_refl eq_refl eq_refl eq_refl) as [Hget Hpost].
  split; [exact Hget|].
  by rewrite (Hpost not_connected eq_refl).
Defined.

(** ** Routing *)

Lemma strip_prefix_app p s : strip_prefix p (p +:+ s) = Some s.
Proof.
  induction p as [|a p IH]; [done|].
  rewrite append_cons. simpl. by rewrite Ascii.eqb_refl.
Qed.

Lemma strip_prefix_Some p s r : strip_prefix p s = Some r → s = p +:+ r.
Proof.
  revert s. induction p as [|a p IH]; intros s; simpl.
  - by intros [= ->].
  - destruct s as [|b s]; [done|].
    destruct (Ascii.eqb a b) eqn:Hab; [|done].
    apply Ascii.eqb_eq in Hab as ->. intros ->%IH. by rewrite append_cons.
Qed.

Lemma until_slash_spec s seg rest :
  until_slash s = (seg, rest) → s = seg +:+ rest ∧ has_slash seg = false.
Proof.
  revert seg rest. induction s as [|c s IH]; intros seg rest; simpl.
  - by intros [= <- <-].
  - destruct (Ascii.eqb c "/") eqn:Hc.
    + by intros [= <- <-].
    + destruct (until_slash s) as [seg' rest']. intros [= <- <-].
      destruct (IH _ _ eq_refl) as [-> Hs]. simpl. by rewrite Hc.
Qed.

Lemma until_slash_app seg rest :
  has_slash seg = false → at_slash rest → until_slash (seg +:+ rest) = (seg, rest).
Proof.
  intros Hseg Hrest. induction seg as [|c seg IH].
  - change ("" +:+ rest) with rest. by destruct Hrest as [->|[r ->]].
  - simpl in Hseg. apply orb_false_iff in Hseg as [Hc Hseg].
    rewrite append_cons. simpl. by rewrite Hc, (IH Hseg).
Qed.

Lemma matches_at_slash ps url kwargs :
  matches ps url kwargs →
  match ps with
  | [] => true
  | Lit (String c _) :: _ => Ascii.eqb c "/"
  | _ => false
  end = true →
  at_slash url.
Proof.
  intros Hm. destruct Hm as [|text ps rest kwargs Hm|]; [by left|..|done].
  destruct text as [|c text]; [done|]. intros ->%Ascii.eqb_eq.
  right. rewrite append_cons. by eexists.
Qed.

Lemma resolve_in_skip p rest url :
  match_parts (parts_of (route p)) url = None →
  resolve_in (p :: rest) url = resolve_in rest url.
Proof. simpl. by intros ->. Qed.

Lemma resolve_in_hit p rest url kwargs :
  match_parts (parts_of (route p)) url = Some kwargs →
  resolve_in (p :: rest) url = Some (p, kwargs).
Proof. simpl. by intros ->. Qed.

Lemma resolve_in_Some patterns url p kwargs :
  resolve_in patterns url = Some (p, kwargs) →
  p ∈ patterns ∧ match_parts (parts_of (route p)) url = Some kwargs.
Proof.
  induction patterns as [|q patterns IH]; [done|]. simpl.
  destruct (match_parts (parts_of (route q)) url) as [kw|] eqn:Hq.
  - intros [= <- <-]. split; [left|done].
  - intros [Hin Hm]%IH. split; [by right|done].
Qed.

Lemma match_parts_sound ps url kwargs :
  match_parts ps url = Some kwargs → matches ps url kwargs.
Proof.
  revert url kwargs. induction ps as [|[text|converter name] ps IH];
    intros url kwargs; simpl.
  - destruct (String.eqb url "") eqn:Hurl; [|done].
    apply String.eqb_eq in Hurl as ->. intros [= <-]. constructor.
  - destruct (strip_prefix text url) as [rest|] eqn:Htext; [|done].
    apply strip_prefix_Some in Htext as ->. intros Hm%IH. by constructor.
  - destruct (String.eqb converter "str") eqn:Hconv; [|done].
    apply String.eqb_eq in Hconv as ->.
    destruct (until_slash url) as [seg rest] eqn:Hseg.
    apply until_slash_spec in Hseg as [-> Hslash].
    destruct (String.eqb seg "") eqn:Hempty; [done|].
    apply String.eqb_neq in Hempty.
    destruct (match_parts ps rest) as [kw|] eqn:Hrest; [|done].
    intros [= <-]. constructor; auto.
Qed.

Lemma match_parts_complete ps url kwargs :
  slash_after_params ps = true →
  matches ps url kwargs → match_parts ps url = Some kwargs.
Proof.
  intros Hwf Hm. induction Hm as
    [|text ps rest kwargs Hm IH|name ps seg rest kwargs Hne Hslash Hm IH]; simpl.
  - done.
  - rewrite strip_prefix_app. by apply IH.
  - simpl in Hwf. apply andb_true_iff in Hwf as [Hnext Hwf].
    rewrite (until_slash_app seg rest Hslash (matches_at_slash _ _ _ Hm Hnext)).
    apply String.eqb_neq in Hne as ->. by rewrite (IH Hwf).
Qed.

Lemma match_parts_iff_matches ps url kwargs :
  slash_after_params ps = true →
  match_parts ps url = Some kwargs ↔ matches ps url kwargs.
Proof.
  intros Hwf. split; [apply match_parts_sound|by apply match_parts_complete].
Qed.

Lemma routes_have_slash_after_params :
  Forall (λ p, slash_after_params (parts_of (route p)) = true) urlpatterns.
Proof. repeat constructor. Qed.

Lemma route_takes_its_paths p url kwargs :
  p ∈ urlpatterns → matches (parts_of (route p)) url kwargs →
  resolve url = Some (p, kwargs).
Proof.
  intros Hp Hm.
  assert (match_parts (parts_of (route p)) url = Some kwargs) as Hown.
  { apply match_parts_complete; [|done].
    by apply (proj1 (Forall_forall _ _) routes_have_slash_after_params). }
  clear Hm. unfold resolve, urlpatterns in *.
  repeat (apply elem_of_cons in Hp as [-> | Hp]);
    [..|by apply not_elem_of_nil in Hp].
  all: apply match_parts_sound in Hown as Hm; vm_compute in Hm.
  all: repeat match goal with
       | H : matches (_ :: _) _ _ |- _ => inversion H; subst; clear H
       | H : matches [] _ _ |- _ => inversion H; subst; clear H
       end.
  all: try match goal with
       | H : ?seg ≠ "" |- _ => destruct seg; [done|]
       end.
  all: repeat (rewrite resolve_in_skip by (vm_compute; reflexivity)).
  all: by apply resolve_in_hit.
Qed.

(** X28. No route is shadowed: a path resolves to a pattern of
    [urlpatterns] with some arguments exactly when that pattern's route
    matches the path with those arguments.  So no path is matched by two
    patterns, and the order of the list decides nothing. *)
Theorem resolve_iff_matches (url : string) (p : url_pattern)
    (kwargs : list (string * string)) :
  resolve url = Some (p, kwargs) ↔
  p ∈ urlpatterns ∧ matches (parts_of (route p)) url kwargs.
Proof.
  split.
  - intros [Hp Hm]%resolve_in_Some. split; [done|]. by apply match_parts_sound.
  - intros [Hp Hm]. by apply route_takes_its_paths.
Qed.

(** X29. Of all the handlers the views define, the routes hand exactly two
    a set of arguments they cannot take: [POST gmail/undo/] reaches
    [UndoOperationView.post] without its [undo_id], and
    [GET gmail/undo/<undo_id>/] reaches [UndoOperationView.get] with an
    [undo_id] it does not take.  Every other route gives its handler the
    arguments of its signature. *)
Theorem handlers_take_route_arguments (p : url_pattern) (m : http_method)
    (s : signature) :
  p ∈ urlpatterns → handler (view p) m = Some s →
  accepts s (param_names (parts_of (route p))) = false ↔
  (name p, m) = ("undo_operations", POST_) ∨ (name p, m) = ("execute_undo", GET_).
Proof.
  intros Hp Hs. unfold urlpatterns in Hp.
  repeat (apply elem_of_cons in Hp as [-> | Hp]);
    [..|by apply not_elem_of_nil in Hp].
  all: destruct m; simpl in Hs; try discriminate Hs;
       injection Hs as <-; vm_compute; split; intros H;
       try discriminate H; try (destruct H as [H|H]; discriminate H);
       auto.
Qed.

Lemma handlers_take_route_arguments_witness :
  accepts (Takes ["undo_id"])
    (param_names (parts_of (route (path "gmail/undo/" UndoOperationView "undo_operations"))))
    = false ↔
  (name (path "gmail/undo/" UndoOperationView "undo_operations"), POST_) =
    ("undo_operations", POST_) ∨
  (name (path "gmail/undo/" UndoOperationView "undo_operations"), POST_) =
    ("execute_undo", GET_).
Proof.
  apply (handlers_take_route_arguments
           (path "gmail/undo/" UndoOperationView "undo_operations") POST_).
  - unfold urlpatterns. do 24 (apply elem_of_cons; right). apply elem_of_cons. by left.
  - reflexivity.
Defined.

(** ** The preview view *)

Section Preview.

Variable service : service_call → result value.
Variable py_repr : value → string.

(** X30. A preview request with a truthy [q] makes one call to the preview
    manager, with [q] and [max_results] as sent (20 when absent; neither is
    stripped, converted or bounded).  A mapping with an ['error'] key goes
    back as it is with status 400.  Any other mapping gives a 200 whose
    [emails], [total_estimate] and [sample_count] are the manager's
    [preview_emails], [total_count] and [sample_size] (an empty list and
    zeros when absent), and whose [estimated_deletion_time] is the manager's
    [estimated_storage_mb] followed by " MB": a size, not a time. *)
Theorem preview_answer (request : HttpRequest) (q : value) (d : dict) :
  data request !! "q" = Some q → truthy q = true →
  let call :=
    preview_deletion_query (user_id request) q
      (default (VInt 20) (data request !! "max_results")) in
  service call = Ok (VDict d) →
  EmailPreviewView_post service py_repr request =
    ([call],
     Ok (match d !! "error" with
         | Some _ => Response (VDict d) HTTP_400_BAD_REQUEST
         | None =>
             Response
               (VDict (list_to_map
                  [("status", VStr "success");
                   ("emails", default (VList []) (d !! "preview_emails"));
                   ("total_estimate", default (VInt 0) (d !! "total_count"));
                   ("sample_count", default (VInt 0) (d !! "sample_size"));
                   ("estimated_deletion_time",
                    VStr (py_str py_repr
                            (default (VInt 0) (d !! "estimated_storage_mb"))
                          +:+ " MB"))]))
               HTTP_200_OK
         end)).
Proof.
  intros Hq Htruthy call Hservice. subst call.
  unfold EmailPreviewView_post, answer_from.
  rewrite Hq in *. simpl. rewrite Htruthy. simpl. rewrite Hservice. simpl.
  destruct (d !! "error") as [err|] eqn:Herr.
  - by rewrite bool_decide_eq_true_2 by done.
  - by rewrite bool_decide_eq_false_2 by (by intros [? [=]]).
Qed.

End Preview.

Lemma preview_answer_witness :
  EmailPreviewView_post
    (λ _, Ok (VDict {[ "total_count" := VInt 7 ]})) sample_repr blank_request =
    ([preview_deletion_query 1 (VStr "   ") (VInt 20)],
     Ok (Response
           (VDict (list_to_map
              [("status", VStr "success");
               ("emails", VList []);
               ("total_estimate", VInt 7);
               ("sample_count", VInt 0);
               ("estimated_deletion_time", VStr (sample_repr (VInt 0) +:+ " MB"))]))
           HTTP_200_OK)).
Proof.
  rewrite (preview_answer _ sample_repr blank_request (VStr "   ")
             {[ "total_count" := VInt 7 ]} eq_refl eq_refl eq_refl).
  reflexivity.
Defined.
